(** * KwikIO: a shallow embedding of [neo/io/kwikio.py]

    The reader maps a pair of HDF5 containers ([name.kwik] and
    [name.raw.kwd]) to neo objects: a [Segment] holding one
    [AnalogSignal] per channel, three synthetic [SpikeTrain]s per
    channel and one [EpochArray].

    Conventions of the embedding.
    - Python floats are idealised as rationals ([Q]).  Division is the
      total division of [Q]; it agrees with numpy's wherever the
      divisor is not zero, and every statement below that goes through
      a division carries the hypothesis that makes the divisor non-zero.
    - Exceptions are values of [exn]; a computation that raises returns
      [Raise e] together with the state of the random generator at the
      time of the raise.
    - [np.random] is the legacy global generator: an infinite supply of
      53-bit words (a uniform draw is [word / 2^53], as numpy builds its
      doubles) and of standard normal deviates, with one cursor each.
    - h5py groups and attribute sets are finite maps keyed by strings.
    - The neo classes are the records the reader fills in; their
      constructors store what they are given, except that a [SpikeTrain]
      refuses times outside its bounds.
    - Sums and products of floats are exact here, where the code rounds
      them: the statements about timestamps compare them with the bounds
      the train itself holds, and none depends on a sum being exact. *)

From Stdlib Require Import QArith Qround Qabs Lqa.
From Stdlib Require Import Ascii.
From stdpp Require Import gmap strings list fin_maps pretty.
Close Scope Q_scope.

(** ** Exceptions and the reader monad *)

Inductive exn : Type :=
| ImportError (module : string)
| NameError (name : string)
| IOError (path : string)
| KeyError (key : string)
| IndexError (index : Z)
| ValueError (msg : string)
| TypeError (msg : string).

Inductive result (A : Type) : Type :=
| Ok (a : A)
| Raise (e : exn).
Arguments Ok {A} a.
Arguments Raise {A} e.

Definition result_bind {A B} (r : result A) (k : A -> result B) : result B :=
  match r with
  | Ok a => k a
  | Raise e => Raise e
  end.

(** The state of [np.random]: the words and normal deviates still to be
    handed out, and how many of each were consumed. *)
Record RandomState : Type := mkRandomState {
  words : nat -> N;
  normals : nat -> Q;
  upos : nat;
  npos : nat
}.

Definition M (A : Type) : Type := RandomState -> RandomState * result A.

Definition ret {A} (a : A) : M A := fun st => (st, Ok a).

Definition raise {A} (e : exn) : M A := fun st => (st, Raise e).

Definition bind {A B} (m : M A) (k : A -> M B) : M B :=
  fun st =>
    match m st with
    | (st1, Ok a) => k a st1
    | (st1, Raise e) => (st1, Raise e)
    end.

Definition lift {A} (r : result A) : M A := fun st => (st, r).

Notation "'do' x <- m ; k" := (bind m (fun x => k))
  (at level 10, x name, m at level 100, k at level 200).
Notation "'doR' x <- r ; k" := (result_bind r (fun x => k))
  (at level 10, x name, r at level 100, k at level 200).

(** [for x in xs: body], the body working on the object [s] it mutates. *)
Fixpoint for_each {A S} (xs : list A) (body : A -> S -> M S) (s : S) : M S :=
  match xs with
  | [] => ret s
  | x :: xs' => do s' <- body x s; for_each xs' body s'
  end.

(** [range(n)] *)
Definition range (n : nat) : list nat := seq 0 n.

(** ** np.random *)

(** One double in [[0, 1)]: a 53-bit integer over [2^53]. *)
Definition uniform_of_word (k : N) : Q :=
  Qmake (Z.of_N (k mod 2 ^ 53)) (2 ^ 53).

(** [np.random.rand(n)] *)
Definition np_random_rand_n (n : nat) : M (list Q) :=
  fun st =>
    (mkRandomState (words st) (normals st) (upos st + n) (npos st),
     Ok (map (fun i => uniform_of_word (words st (upos st + i))) (seq 0 n))).

(** [np.random.rand()] *)
Definition np_random_rand : M Q :=
  fun st =>
    (mkRandomState (words st) (normals st) (S (upos st)) (npos st),
     Ok (uniform_of_word (words st (upos st)))).

(** [np.random.randn(d0, d1, d2)], in C order. *)
Definition np_random_randn (d0 d1 d2 : nat) : M (list (list (list Q))) :=
  fun st =>
    (mkRandomState (words st) (normals st) (upos st) (npos st + d0 * d1 * d2),
     Ok (map (fun i =>
           map (fun j =>
             map (fun k => normals st (npos st + (i * d1 + j) * d2 + k))
                 (seq 0 d2))
               (seq 0 d1))
             (seq 0 d0))).

(** ** Quantities *)

Inductive pq : Type := pq_s | pq_ms | pq_V | pq_mV | pq_Hz.

Record Quantity : Type := mkQuantity {
  magnitude : Q;
  unit_of : pq
}.

Record QuantityArray : Type := mkQuantityArray {
  magnitudes : list Q;
  units_of : pq
}.

(** ** The containers *)

(** A 2-D HDF5 dataset, the rank [read_segment] expects of [data]: its
    shape [(shape0, shape1)] and its cells [cell i j], [i] along axis 0. *)
Record Dataset : Type := mkDataset {
  shape0 : nat;
  shape1 : nat;
  cell : nat -> nat -> Z
}.

(** One group [recordings/<n>]: the member [data] and the attributes. *)
Record Recording : Type := mkRecording {
  data : option Dataset;
  attrs : gmap string Q
}.

Record H5File : Type := mkH5File {
  recordings : option (gmap string Recording)
}.

(** [h5py.File(name, 'r')] over the files that exist. *)
Definition h5py_File (fs : gmap string H5File) (name : string) : result H5File :=
  match fs !! name with
  | Some f => Ok f
  | None => Raise (IOError name)
  end.

(** [str(dataset)] *)
Definition str (dataset : Z) : string := pretty dataset.

(** [kwd['recordings'][str(dataset)]] *)
Definition kwd_recording (kwd : H5File) (dataset : Z) : result Recording :=
  match recordings kwd with
  | None => Raise (KeyError "recordings")
  | Some grp =>
      match grp !! str dataset with
      | Some r => Ok r
      | None => Raise (KeyError (str dataset))
      end
  end.

(** [kwd['recordings'][str(dataset)]['data']] *)
Definition kwd_data (kwd : H5File) (dataset : Z) : result Dataset :=
  doR r <- kwd_recording kwd dataset;
  match data r with
  | Some d => Ok d
  | None => Raise (KeyError "data")
  end.

(** [kwd['recordings'][str(dataset)].attrs] *)
Definition kwd_attrs (kwd : H5File) (dataset : Z) : result (gmap string Q) :=
  doR r <- kwd_recording kwd dataset;
  Ok (attrs r).

(** [attrs[key]] *)
Definition attr (a : gmap string Q) (key : string) : result Q :=
  match a !! key with
  | Some v => Ok v
  | None => Raise (KeyError key)
  end.

(** [d[i]] for an integer [i]: row [i] of the dataset, counted from the
    end when [i] is negative. *)
Definition dataset_row (d : Dataset) (i : Z) : result (list Z) :=
  let n := Z.of_nat (shape0 d) in
  if decide (0 <= i < n)%Z then
    Ok (map (cell d (Z.to_nat i)) (seq 0 (shape1 d)))
  else if decide (- n <= i < 0)%Z then
    Ok (map (cell d (Z.to_nat (i + n))) (seq 0 (shape1 d)))
  else Raise (IndexError i).

(** ** os.path.splitext *)

Fixpoint rfind_from (c : Ascii.ascii) (p : string) (i last : Z) : Z :=
  match p with
  | EmptyString => last
  | String a p' => rfind_from c p' (i + 1) (if Ascii.eqb a c then i else last)
  end.

(** [p.rfind(c)], -1 when [c] does not occur. *)
Definition rfind (c : Ascii.ascii) (p : string) : Z := rfind_from c p 0 (-1).

(** The loop of [splitext] that skips leading dots: is there a character
    other than a dot among the [count] characters from [filenameIndex]? *)
Fixpoint has_non_dot (p : string) (filenameIndex count : nat) : bool :=
  match count with
  | O => false
  | S count' =>
      match String.get filenameIndex p with
      | Some a =>
          if Ascii.eqb a "."%char then has_non_dot p (S filenameIndex) count'
          else true
      | None => true
      end
  end.

Definition splitext (p : string) : string * string :=
  let sepIndex := rfind "/"%char p in
  let dotIndex := rfind "."%char p in
  if decide (sepIndex < dotIndex)%Z then
    let filenameIndex := Z.to_nat (sepIndex + 1) in
    if has_non_dot p filenameIndex (Z.to_nat dotIndex - filenameIndex) then
      (String.substring 0 (Z.to_nat dotIndex) p,
       String.substring (Z.to_nat dotIndex)
                        (String.length p - Z.to_nat dotIndex) p)
    else (p, EmptyString)
  else (p, EmptyString).

(** ** numpy helpers *)

(** [np.arange(start, stop, step)] on integers, [step > 0]. *)
Definition np_arange (start stop step : Z) : list Z :=
  map (fun k => (start + step * Z.of_nat k)%Z)
      (seq 0 (Z.to_nat ((stop - start + step - 1) / step))).

(** [np.arange(0, stop)] for a numeric [stop]: [ceil(stop)] values. *)
Definition np_arange_to (stop : Q) : list Q :=
  map (fun k => inject_Z (Z.of_nat k)) (seq 0 (Z.to_nat (Qceiling stop))).

(** The running maximum of [max]: a later item replaces the current one
    only when it is strictly greater. *)
Definition max_from (x0 : Q) (l : list Q) : Q :=
  fold_left (fun m x => if Qlt_le_dec m x then x else m) l x0.

(** [max(l)] and [l.max()]: [ValueError] on an empty sequence. *)
Definition py_max (l : list Q) : result Q :=
  match l with
  | [] => Raise (ValueError "max() arg is an empty sequence")
  | x0 :: l' => Ok (max_from x0 l')
  end.

(** [x.astype('i')] on one float: truncation toward zero. *)
Definition astype_i (x : Q) : Z :=
  if Qlt_le_dec x 0 then Qceiling x else Qfloor x.

(** [a[idx]] for one integer index of a 1-D array. *)
Definition np_item (a : list Q) (i : Z) : result Q :=
  let n := Z.of_nat (length a) in
  let j := if decide (i < 0)%Z then (i + n)%Z else i in
  if decide (0 <= j < n)%Z then
    match a !! Z.to_nat j with
    | Some x => Ok x
    | None => Raise (IndexError i)
    end
  else Raise (IndexError i).

(** [a[idx]] for an integer array [idx]. *)
Fixpoint np_take (a : list Q) (idx : list Z) : result (list Q) :=
  match idx with
  | [] => Ok []
  | i :: idx' =>
      doR x <- np_item a i;
      doR xs <- np_take a idx';
      Ok (x :: xs)
  end.

(** ** The neo objects *)

Inductive annotation : Type :=
| AnnStr (s : string)
| AnnInt (z : Z).

Record AnalogSignal : Type := mkAnalogSignal {
  ana_signal : list Z;
  ana_units : pq;
  ana_sampling_rate : Quantity;
  ana_t_start : Quantity;
  ana_channel_index : Z;
  ana_lazy_shape : option Q;
  ana_annotations : gmap string annotation;
  ana_segment : option string
}.

Record SpikeTrain : Type := mkSpikeTrain {
  sptr_times : list Q;
  sptr_units : pq;
  sptr_t_start : Quantity;
  sptr_t_stop : Quantity;
  sptr_name : string;
  sptr_lazy_shape : option (list nat);
  sptr_waveforms : option (list (list (list Q)) * pq);
  sptr_sampling_rate : option Quantity;
  sptr_left_sweep : option Quantity;
  sptr_annotations : gmap string annotation;
  sptr_segment : option string
}.

Record EpochArray : Type := mkEpochArray {
  epo_times : QuantityArray;
  epo_durations : QuantityArray;
  epo_labels : list string;
  epo_segment : option string
}.

Record Segment : Type := mkSegment {
  seg_name : string;
  analogsignals : list AnalogSignal;
  spiketrains : list SpikeTrain;
  epocharrays : list EpochArray;
  seg_duration : option Q
}.

(** [AnalogSignal(signal, units=, sampling_rate=, t_start=, channel_index=)] *)
Definition AnalogSignal_new (signal : list Z) (units : pq)
    (sampling_rate t_start : Quantity) (channel_index : Z) : AnalogSignal :=
  mkAnalogSignal signal units sampling_rate t_start channel_index None ∅ None.

(** The train [SpikeTrain(times, t_start=, t_stop=, units=, name=)]
    builds when it accepts the times: no waveforms, no left sweep, and the
    default sampling rate of 1 Hz. *)
Definition SpikeTrain_init (times : list Q) (t_start t_stop : Quantity)
    (units : pq) (name : string) : SpikeTrain :=
  mkSpikeTrain times units t_start t_stop name None None
    (Some (mkQuantity 1 pq_Hz)) None ∅ None.

(** Modelled from the spec: the class [SpikeTrain] of [neo.core] is not
    among the sources.  The spec bounds the timestamps of a train by its
    start and stop times; the constructor enforces the bounds, both
    included, on a non-empty array of times and raises [ValueError] for a
    time before [t_start] or after [t_stop]. *)
Definition SpikeTrain_new (times : list Q) (t_start t_stop : Quantity)
    (units : pq) (name : string) : result SpikeTrain :=
  if existsb (fun t => if Qlt_le_dec t (magnitude t_start) then true else false)
             times
  then Raise (ValueError "The first spike is before t_start")
  else if existsb (fun t => if Qlt_le_dec (magnitude t_stop) t then true else false)
                  times
  then Raise (ValueError "The last spike is after t_stop")
  else Ok (SpikeTrain_init times t_start t_stop units name).

(** [EpochArray()] *)
Definition EpochArray_new : EpochArray :=
  mkEpochArray (mkQuantityArray [] pq_s) (mkQuantityArray [] pq_s) [] None.

(** [Segment(name=)] *)
Definition Segment_new (name : string) : Segment :=
  mkSegment name [] [] [] None.

Definition ana_annotate (key : string) (v : annotation) (a : AnalogSignal)
    : AnalogSignal :=
  mkAnalogSignal (ana_signal a) (ana_units a) (ana_sampling_rate a)
    (ana_t_start a) (ana_channel_index a) (ana_lazy_shape a)
    (<[key := v]> (ana_annotations a)) (ana_segment a).

Definition ana_set_lazy_shape (shape : Q) (a : AnalogSignal) : AnalogSignal :=
  mkAnalogSignal (ana_signal a) (ana_units a) (ana_sampling_rate a)
    (ana_t_start a) (ana_channel_index a) (Some shape)
    (ana_annotations a) (ana_segment a).

Definition ana_set_segment (owner : string) (a : AnalogSignal) : AnalogSignal :=
  mkAnalogSignal (ana_signal a) (ana_units a) (ana_sampling_rate a)
    (ana_t_start a) (ana_channel_index a) (ana_lazy_shape a)
    (ana_annotations a) (Some owner).

Definition sptr_annotate (key : string) (v : annotation) (t : SpikeTrain)
    : SpikeTrain :=
  mkSpikeTrain (sptr_times t) (sptr_units t) (sptr_t_start t) (sptr_t_stop t)
    (sptr_name t) (sptr_lazy_shape t) (sptr_waveforms t)
    (sptr_sampling_rate t) (sptr_left_sweep t)
    (<[key := v]> (sptr_annotations t)) (sptr_segment t).

Definition sptr_set_lazy_shape (shape : list nat) (t : SpikeTrain) : SpikeTrain :=
  mkSpikeTrain (sptr_times t) (sptr_units t) (sptr_t_start t) (sptr_t_stop t)
    (sptr_name t) (Some shape) (sptr_waveforms t)
    (sptr_sampling_rate t) (sptr_left_sweep t)
    (sptr_annotations t) (sptr_segment t).

(** The three assignments of the eager branch:
    [waveforms], [sampling_rate] and [left_sweep]. *)
Definition sptr_set_waveforms (w : list (list (list Q)) * pq)
    (sampling_rate left_sweep : Quantity) (t : SpikeTrain) : SpikeTrain :=
  mkSpikeTrain (sptr_times t) (sptr_units t) (sptr_t_start t) (sptr_t_stop t)
    (sptr_name t) (sptr_lazy_shape t) (Some w)
    (Some sampling_rate) (Some left_sweep)
    (sptr_annotations t) (sptr_segment t).

Definition sptr_set_segment (owner : string) (t : SpikeTrain) : SpikeTrain :=
  mkSpikeTrain (sptr_times t) (sptr_units t) (sptr_t_start t) (sptr_t_stop t)
    (sptr_name t) (sptr_lazy_shape t) (sptr_waveforms t)
    (sptr_sampling_rate t) (sptr_left_sweep t)
    (sptr_annotations t) (Some owner).

Definition epo_set_segment (owner : string) (e : EpochArray) : EpochArray :=
  mkEpochArray (epo_times e) (epo_durations e) (epo_labels e) (Some owner).

(** [seg.create_many_to_one_relationship()]: every child gets a reference
    to the segment that holds it, kept here as the segment's name. *)
Definition create_many_to_one_relationship (seg : Segment) : Segment :=
  mkSegment (seg_name seg)
    (map (ana_set_segment (seg_name seg)) (analogsignals seg))
    (map (sptr_set_segment (seg_name seg)) (spiketrains seg))
    (map (epo_set_segment (seg_name seg)) (epocharrays seg))
    (seg_duration seg).

Definition add_analogsignal (ana : AnalogSignal) (seg : Segment) : Segment :=
  mkSegment (seg_name seg) (analogsignals seg ++ [ana]) (spiketrains seg)
    (epocharrays seg) (seg_duration seg).

Definition add_spiketrain (sptr : SpikeTrain) (seg : Segment) : Segment :=
  mkSegment (seg_name seg) (analogsignals seg) (spiketrains seg ++ [sptr])
    (epocharrays seg) (seg_duration seg).

Definition add_epocharray (epo : EpochArray) (seg : Segment) : Segment :=
  mkSegment (seg_name seg) (analogsignals seg) (spiketrains seg)
    (epocharrays seg ++ [epo]) (seg_duration seg).

Definition set_duration (d : Q) (seg : Segment) : Segment :=
  mkSegment (seg_name seg) (analogsignals seg) (spiketrains seg)
    (epocharrays seg) (Some d).

(** ** The module's globals *)

(** [stats.nct.pdf(x, df, nc)], the density scipy provides. *)
Definition NctPdf : Type := Q -> Q -> Q -> Q.

(** The names the module body binds, and [timevect], which
    [read_stimulus] reads as a global although the module never binds
    it: it is [None] unless the surrounding process supplies it. *)
Record Globals : Type := mkGlobals {
  stats : option NctPdf;
  HAVE_SCIPY : bool;
  SCIPY_ERR : option exn;
  timevect : option (list Q)
}.

(** Running the module body, given what [from scipy import stats]
    does: only an [ImportError] is caught. *)
Definition load_module (scipy : result NctPdf) : result Globals :=
  match scipy with
  | Ok st => Ok (mkGlobals (Some st) true None None)
  | Raise (ImportError m) =>
      Ok (mkGlobals None false (Some (ImportError m)) None)
  | Raise e => Raise e
  end.

(** The surrounding process binding the global [timevect]. *)
Definition supply_timevect (tv : list Q) (g : Globals) : Globals :=
  mkGlobals (stats g) (HAVE_SCIPY g) (SCIPY_ERR g) (Some tv).

(** Reading a global name. *)
Definition global {A} (name : string) (v : option A) : M A :=
  match v with
  | Some a => ret a
  | None => raise (NameError name)
  end.

(** [raise obj] *)
Definition raise_obj {A} (obj : option exn) : M A :=
  match obj with
  | Some e => raise e
  | None => raise (TypeError "exceptions must derive from BaseException")
  end.

(** ** KwikIO *)

Record KwikIO : Type := mkKwikIO {
  filename : string
}.

Definition read_analogsignal (g : Globals) (self : KwikIO) (lazy : bool)
    (kwd : H5File) (channel_index dataset : Z) : result AnalogSignal :=
  doR attrs <- kwd_attrs kwd dataset;
  doR anasig <-
    (if lazy then
       doR sample_rate <- attr attrs "sample_rate";
       doR start_time <- attr attrs "start_time";
       let anasig :=
         AnalogSignal_new [] pq_V (mkQuantity sample_rate pq_Hz)
           (mkQuantity start_time pq_s) channel_index in
       doR shape <- attr attrs "shape";
       Ok (ana_set_lazy_shape shape anasig)
     else
       doR d <- kwd_data kwd dataset;
       doR data <- dataset_row d channel_index;
       doR sample_rate <- attr attrs "sample_rate";
       doR start_time <- attr attrs "start_time";
       Ok (AnalogSignal_new data pq_V (mkQuantity sample_rate pq_Hz)
             (mkQuantity start_time pq_s) channel_index));
  Ok (ana_annotate "info" (AnnStr "What to insert metadata") anasig).

(** The labels loop of [read_stimulus]. *)
Definition draw_label (l : list string) : M (list string) :=
  do r <- np_random_rand;
  if Qlt_le_dec 0.6 r then ret (l ++ ["TriggerA"]) else ret (l ++ ["TriggerB"]).

Definition read_stimulus (g : Globals) (self : KwikIO) (lazy : bool)
    : M EpochArray :=
  let epo := EpochArray_new in
  if lazy then ret epo
  else
    let n := 1000%nat in
    do tv <- global "timevect" (timevect g);
    do r <- np_random_rand_n n;
    let idx := map (fun x => astype_i (x * inject_Z (Z.of_nat (length tv)))) r in
    do times <- lift (np_take tv idx);
    let durations := map (fun one => one * 500)%Q (repeat 1%Q n) in
    do l <- for_each (range n) (fun _ l => draw_label l) [];
    ret (mkEpochArray (mkQuantityArray times pq_s)
           (mkQuantityArray durations pq_ms) l (epo_segment epo)).

(** The fake spike shape [w] of [read_spiketrain]. *)
Definition spike_template (pdf : NctPdf) : result (list Q) :=
  let w1 :=
    map (fun y => (- y) / 3)%Q
        (rev (map (fun x => pdf (inject_Z x) 5%Q 20%Q) (np_arange 11 60 4))) in
  let w2 := map (fun x => pdf (inject_Z x) 5%Q 20%Q) (np_arange 11 60 2) in
  let w := w1 ++ w2 in
  doR m <- py_max w;
  Ok (map (fun x => (- x) / m)%Q w).

(** [np.tile(w[np.newaxis, np.newaxis, :], (n, 1, 1))] *)
Definition tile (w : list Q) (n : nat) : list (list (list Q)) :=
  repeat [w] n.

(** [waveforms *= noise / 6 + 1], element by element. *)
Definition perturb (waveforms noise : list (list (list Q)))
    : list (list (list Q)) :=
  zip_with (zip_with (zip_with (fun x e => x * (e / 6 + 1))%Q)) waveforms noise.

Definition default_segment_duration : Q := 15.
Definition default_t_start : Q := -1.

Definition read_spiketrain (g : Globals) (self : KwikIO)
    (lazy cascade : bool) (segment_duration t_start : Q) (channel_index : Z)
    : M SpikeTrain :=
  do _ <- (if negb (HAVE_SCIPY g) then raise_obj (SCIPY_ERR g) else ret tt);
  let num_spike_by_spiketrain := 40%nat in
  let sr := 10000%Q in
  do times <-
    (if lazy then ret []
     else
       do r <- np_random_rand_n num_spike_by_spiketrain;
       ret (map (fun x => x * segment_duration + t_start)%Q r));
  do spiketr <-
    lift (SpikeTrain_new times (mkQuantity t_start pq_s)
            (mkQuantity (t_start + segment_duration)%Q pq_s) pq_s
            "it is a spiketrain from exampleio");
  let spiketr :=
    if lazy then sptr_set_lazy_shape [num_spike_by_spiketrain] spiketr
    else spiketr in
  do pdf <- global "stats" (stats g);
  do w <- lift (spike_template pdf);
  do spiketr <-
    (if negb lazy then
       let waveforms := tile w num_spike_by_spiketrain in
       do noise <- np_random_randn num_spike_by_spiketrain 1 (length w);
       ret (sptr_set_waveforms (perturb waveforms noise, pq_mV)
              (mkQuantity sr pq_Hz) (mkQuantity 1.5%Q pq_s) spiketr)
     else ret spiketr);
  ret (sptr_annotate "channel_index" (AnnInt channel_index) spiketr).

(** The block under [if cascade:] in [read_segment], working on [seg]. *)
Definition read_segment_cascade (g : Globals) (self : KwikIO) (lazy : bool)
    (kwd : H5File) (dataset : Z) (num_channels : nat) (attrs : gmap string Q)
    (seg : Segment) : M Segment :=
  do seg <- for_each (range num_channels) (fun i seg =>
      do ana <- lift (read_analogsignal g self lazy kwd (Z.of_nat i) dataset);
      ret (add_analogsignal ana seg)) seg;
  let num_spiketrain_by_channel := 3%nat in
  do seg <- for_each (range num_channels) (fun i seg =>
      for_each (range num_spiketrain_by_channel) (fun _ seg =>
        do sptr <- read_spiketrain g self lazy true
                     default_segment_duration default_t_start (Z.of_nat i);
        ret (add_spiketrain sptr seg)) seg) seg;
  do epo <- read_stimulus g self lazy;
  let seg := add_epocharray epo seg in
  do shape <- lift (attr attrs "shape");
  do start_time <- lift (attr attrs "start_time");
  do sample_rate <- lift (attr attrs "sample_rate");
  let timestamps :=
    map (fun x => (x + start_time) / sample_rate)%Q (np_arange_to shape) in
  do m <- lift (py_max timestamps);
  ret (set_duration m seg).

Definition read_segment (g : Globals) (fs : gmap string H5File)
    (self : KwikIO) (lazy cascade : bool) (dataset : Z) : M Segment :=
  let basename := fst (splitext (filename self)) in
  do kwik <- lift (h5py_File fs (filename self));
  do kwd <- lift (h5py_File fs (basename +:+ ".raw.kwd"));
  do d <- lift (kwd_data kwd dataset);
  let num_channels := shape1 d in
  do attrs <- lift (kwd_attrs kwd dataset);
  let seg := Segment_new "session something" in
  do seg <-
    (if cascade then
       read_segment_cascade g self lazy kwd dataset num_channels attrs seg
     else ret seg);
  ret (create_many_to_one_relationship seg).

(** The globals a method sees when it is called: the module body has
    run, and the process may have bound [timevect] since. *)
Definition globals_at_call (scipy : result NctPdf) (tv : option (list Q))
    : result Globals :=
  doR g <- load_module scipy;
  Ok (match tv with
      | Some v => supply_timevect v g
      | None => g
      end).

(** ** Example inputs *)

(** A density with its mode at [nc], positive everywhere. *)
Definition example_pdf : NctPdf :=
  fun x df nc => (nc / (df + (x - nc) * (x - nc)))%Q.

Definition example_random : RandomState :=
  mkRandomState
    (fun i => (N.of_nat i * 2654435761 + 40503)%N)
    (fun i => (inject_Z (Z.of_nat i mod 7 - 3) / 10)%Q)
    0 0.

(** Three samples of two channels: sample [i] of channel [j] is [10 i + j]. *)
Definition example_dataset : Dataset :=
  mkDataset 3 2 (fun i j => Z.of_nat (10 * i + j)).

Definition example_attrs : gmap string Q :=
  <["shape" := 3%Q]> (<["start_time" := 0%Q]> {["sample_rate" := 30000%Q]}).

Definition example_kwd : H5File :=
  mkH5File (Some {["0" := mkRecording (Some example_dataset) example_attrs]}).

Definition example_fs : gmap string H5File :=
  <["exp.kwik" := mkH5File None]> {["exp.raw.kwd" := example_kwd]}.

Definition example_io : KwikIO := mkKwikIO "exp.kwik".

(** One sample of two channels, declared as one sample. *)
Definition example_short_dataset : Dataset :=
  mkDataset 1 2 (fun i j => Z.of_nat (10 * i + j)).

Definition example_short_attrs : gmap string Q :=
  <["shape" := 1%Q]> (<["start_time" := 0%Q]> {["sample_rate" := 30000%Q]}).

Definition example_short_kwd : H5File :=
  mkH5File (Some {["0" := mkRecording (Some example_short_dataset)
                            example_short_attrs]}).

Definition example_short_fs : gmap string H5File :=
  <["exp.kwik" := mkH5File None]> {["exp.raw.kwd" := example_short_kwd]}.

(** The globals after a successful import, as [load_module] leaves them. *)
Definition example_globals : Globals :=
  mkGlobals (Some example_pdf) true None None.

(** The same, with a time vector supplied from outside. *)
Definition example_globals_timevect : Globals :=
  supply_timevect [0; 1 # 2; 1]%Q example_globals.

(** The globals after a failed import of scipy. *)
Definition example_globals_no_scipy : Globals :=
  mkGlobals None false (Some (ImportError "scipy")) None.

(** The globals with an empty time vector supplied. *)
Definition example_globals_empty_timevect : Globals :=
  supply_timevect [] example_globals.

(** A recording that lacks the attribute [start_time] and has no data. *)
Definition example_kwd_no_start_time : H5File :=
  mkH5File (Some {["0" := mkRecording None
                            (<["shape" := 3%Q]> {["sample_rate" := 30000%Q]})]}).

(** ** Observations used in the statements *)

(** [np.abs(l)] *)
Definition np_abs (l : list Q) : list Q := map Qabs l.

Fixpoint argmax_from (best : Q) (besti i : nat) (l : list Q) : nat :=
  match l with
  | [] => besti
  | x :: l' =>
      if Qlt_le_dec best x then argmax_from x i (S i) l'
      else argmax_from best besti (S i) l'
  end.

(** [np.argmax(l)]: the first index that holds the maximum. *)
Definition np_argmax (l : list Q) : nat :=
  match l with
  | [] => 0
  | x0 :: l' => argmax_from x0 0 1 l'
  end.


(** The channel a spike train was annotated with. *)
Definition sptr_channel (t : SpikeTrain) : option annotation :=
  sptr_annotations t !! "channel_index".

(** The label [read_stimulus] appends for one uniform draw. *)
Definition label_of_draw (r : Q) : string :=
  if Qlt_le_dec 0.6 r then "TriggerA" else "TriggerB".

(** The generator [st] is [st0] after [a] uniform words and [b] normal
    deviates were consumed. *)
Definition generator_advanced (st0 : RandomState) (a b : nat)
    (st : RandomState) : Prop :=
  words st = words st0 /\ normals st = normals st0 /\
  upos st = (upos st0 + a)%nat /\ npos st = (npos st0 + b)%nat.

(** * Properties *)

Example splitext_kwik : splitext "/data/exp.kwik" = ("/data/exp", ".kwik").
Proof. reflexivity. Qed.

Example splitext_hidden : splitext "dir.d/.profile" = ("dir.d/.profile", "").
Proof. reflexivity. Qed.

(** ** The monad *)

Lemma bind_Ok_inv {A B} (m : M A) (k : A -> M B) st st' b :
  bind m k st = (st', Ok b) ->
  exists a st1, m st = (st1, Ok a) /\ k a st1 = (st', Ok b).
Proof.
  unfold bind. destruct (m st) as [st1 [a | e]]; intros H.
  - exists a, st1. split; [reflexivity | exact H].
  - discriminate H.
Qed.

Lemma bind_Ok {A B} (m : M A) (k : A -> M B) st st1 a :
  m st = (st1, Ok a) -> bind m k st = k a st1.
Proof. unfold bind. intros ->. reflexivity. Qed.

Lemma bind_Raise {A B} (m : M A) (k : A -> M B) st st1 e :
  m st = (st1, Raise e) -> bind m k st = (st1, Raise e).
Proof. unfold bind. intros ->. reflexivity. Qed.

Lemma lift_Ok_inv {A} (r : result A) st st' a :
  lift r st = (st', Ok a) -> st' = st /\ r = Ok a.
Proof. unfold lift. intros H. injection H as <- ->. split; reflexivity. Qed.

Lemma ret_inv {A} (x a : A) st st' :
  ret x st = (st', Ok a) -> st' = st /\ a = x.
Proof. unfold ret. intros H. injection H as <- <-. split; reflexivity. Qed.

Lemma Ok_inj {A} (a b : A) : Ok a = Ok b -> a = b.
Proof. intros H. injection H as ->. reflexivity. Qed.

Lemma result_bind_Ok_inv {A B} (r : result A) (k : A -> result B) b :
  result_bind r k = Ok b -> exists a, r = Ok a /\ k a = Ok b.
Proof.
  destruct r as [a | e]; simpl; intros H.
  - exists a. split; [reflexivity | exact H].
  - discriminate H.
Qed.

(** A loop invariant for [for_each]: [I done s] relates the items already
    visited to the object the loop works on. *)
Lemma for_each_invariant {A S} (I : list A -> S -> Prop)
    (body : A -> S -> M S) (xs : list A) :
  (forall done x s st st' s',
      I done s -> body x s st = (st', Ok s') -> I (done ++ [x]) s') ->
  forall done s st st' s',
    I done s -> for_each xs body s st = (st', Ok s') -> I (done ++ xs) s'.
Proof.
  intros Hstep. induction xs as [| x xs IH]; intros done s st st' s' HI Hrun.
  - simpl in Hrun. apply ret_inv in Hrun as [_ ->].
    rewrite app_nil_r. exact HI.
  - simpl in Hrun. apply bind_Ok_inv in Hrun as (s1 & st1 & Hb & Hrest).
    replace (done ++ x :: xs) with ((done ++ [x]) ++ xs)
      by (rewrite <- app_assoc; reflexivity).
    eapply IH; [| exact Hrest]. eapply Hstep; eassumption.
Qed.

(** ** Random draws *)

Lemma uniform_of_word_range (k : N) :
  (0 <= uniform_of_word k)%Q /\ (uniform_of_word k < 1)%Q.
Proof.
  unfold uniform_of_word, Qle, Qlt. simpl.
  assert (H : (0 <= Z.of_N (k mod 2 ^ 53) < 2 ^ 53)%Z).
  { pose proof (N.mod_upper_bound k (2 ^ 53)%N ltac:(discriminate)) as Hlt.
    split; [apply N2Z.is_nonneg |].
    change (2 ^ 53)%Z with (Z.of_N (2 ^ 53)). apply N2Z.inj_lt. exact Hlt. }
  change (Z.pos (2 ^ 53)) with (2 ^ 53)%Z. lia.
Qed.

Lemma np_random_rand_n_run (n : nat) st :
  np_random_rand_n n st =
    (mkRandomState (words st) (normals st) (upos st + n) (npos st),
     Ok (map (fun i => uniform_of_word (words st (upos st + i))) (seq 0 n))).
Proof. reflexivity. Qed.

Lemma rand_n_draws_in_unit_interval (n : nat) st st' r :
  np_random_rand_n n st = (st', Ok r) ->
  length r = n /\ Forall (fun x => (0 <= x)%Q /\ (x < 1)%Q) r.
Proof.
  rewrite np_random_rand_n_run. intros H. injection H as _ <-. split.
  - rewrite length_map, length_seq. reflexivity.
  - apply Forall_forall. intros x Hx. apply list_elem_of_In, in_map_iff in Hx.
    destruct Hx as (i & <- & _). apply uniform_of_word_range.
Qed.

(** ** Maxima *)

Lemma max_from_spec (l : list Q) : forall x0,
  In (max_from x0 l) (x0 :: l) /\
  forall y, In y (x0 :: l) -> (y <= max_from x0 l)%Q.
Proof.
  unfold max_from. induction l as [| x l IH]; intros x0; simpl.
  - split; [left; reflexivity |]. intros y [<- | []]. apply Qle_refl.
  - destruct (Qlt_le_dec x0 x) as [Hlt | Hle].
    + destruct (IH x) as [Hin Hub]. split.
      * destruct Hin as [E | Hin]; [right; left; exact E | right; right; exact Hin].
      * intros y [<- | [<- | Hy]].
        -- apply Qle_trans with x; [apply Qlt_le_weak; exact Hlt |].
           apply Hub. left; reflexivity.
        -- apply Hub. left; reflexivity.
        -- apply Hub. right; exact Hy.
    + destruct (IH x0) as [Hin Hub]. split.
      * destruct Hin as [E | Hin]; [left; exact E | right; right; exact Hin].
      * intros y [<- | [<- | Hy]].
        -- apply Hub. left; reflexivity.
        -- apply Qle_trans with x0; [exact Hle |]. apply Hub. left; reflexivity.
        -- apply Hub. right; exact Hy.
Qed.

Lemma py_max_spec (l : list Q) (m : Q) :
  py_max l = Ok m -> In m l /\ forall y, In y l -> (y <= m)%Q.
Proof.
  destruct l as [| x0 l]; simpl; intros H; [discriminate H |].
  injection H as <-. apply max_from_spec.
Qed.

Lemma py_max_nonempty (l : list Q) :
  l <> [] -> exists m, py_max l = Ok m.
Proof.
  destruct l as [| x0 l]; intros H; [contradiction |].
  eexists. reflexivity.
Qed.

Lemma argmax_from_spec (l : list Q) : forall best besti i,
  (besti < i)%nat ->
  (argmax_from best besti i l = besti /\
   forall y, In y l -> (y <= best)%Q) \/
  (exists v, (i <= argmax_from best besti i l)%nat /\
     l !! (argmax_from best besti i l - i)%nat = Some v /\
     (best <= v)%Q /\ forall y, In y l -> (y <= v)%Q).
Proof.
  induction l as [| x l IH]; intros best besti i Hlt; simpl.
  - left. split; [reflexivity |]. intros y [].
  - destruct (Qlt_le_dec best x) as [Hbx | Hxb].
    + right. destruct (IH x i (S i) ltac:(lia)) as [[E Hub] | (v & Hge & Hv & Hbv & Hub)].
      * exists x. rewrite E. replace (i - i)%nat with 0%nat by lia.
        split; [lia |]. split; [reflexivity |].
        split; [apply Qlt_le_weak; exact Hbx |].
        intros y [<- | Hy]; [apply Qle_refl | apply Hub; exact Hy].
      * exists v. split; [lia |]. split.
        { replace (argmax_from x i (S i) l - i)%nat
            with (S (argmax_from x i (S i) l - S i))%nat by lia.
          exact Hv. }
        split; [apply Qle_trans with x; [apply Qlt_le_weak; exact Hbx | exact Hbv] |].
        intros y [<- | Hy]; [exact Hbv | apply Hub; exact Hy].
    + destruct (IH best besti (S i) ltac:(lia)) as [[E Hub] | (v & Hge & Hv & Hbv & Hub)].
      * left. split; [exact E |].
        intros y [<- | Hy]; [exact Hxb | apply Hub; exact Hy].
      * right. exists v. split; [lia |]. split.
        { replace (argmax_from best besti (S i) l - i)%nat
            with (S (argmax_from best besti (S i) l - S i))%nat by lia.
          exact Hv. }
        split; [exact Hbv |].
        intros y [<- | Hy]; [apply Qle_trans with best; assumption | apply Hub; exact Hy].
Qed.

(** [np_argmax] points at an element that bounds all the others. *)
Lemma np_argmax_spec (l : list Q) :
  l <> [] ->
  exists v, l !! np_argmax l = Some v /\ forall y, In y l -> (y <= v)%Q.
Proof.
  destruct l as [| x0 l]; intros Hne; [contradiction |]. unfold np_argmax.
  destruct (argmax_from_spec l x0 0 1 ltac:(lia))
    as [[E Hub] | (v & Hge & Hv & Hbv & Hub)].
  - exists x0. rewrite E. split; [reflexivity |].
    intros y [<- | Hy]; [apply Qle_refl | apply Hub; exact Hy].
  - exists v. split.
    + replace (argmax_from x0 0 1 l) with (S (argmax_from x0 0 1 l - 1))%nat by lia.
      exact Hv.
    + intros y [<- | Hy]; [exact Hbv | apply Hub; exact Hy].
Qed.

(** ** The spike template *)

Lemma np_arange_11_60_4 :
  np_arange 11 60 4 = [11; 15; 19; 23; 27; 31; 35; 39; 43; 47; 51; 55; 59]%Z.
Proof. reflexivity. Qed.

Lemma np_arange_11_60_2 :
  np_arange 11 60 2 =
    [11; 13; 15; 17; 19; 21; 23; 25; 27; 29; 31; 33; 35; 37; 39; 41; 43; 45;
     47; 49; 51; 53; 55; 57; 59]%Z.
Proof. reflexivity. Qed.

(** Every abscissa of the first piece is one of the second piece. *)
Lemma coarse_grid_in_fine_grid (x : Z) :
  In x (np_arange 11 60 4) -> In x (np_arange 11 60 2).
Proof.
  rewrite np_arange_11_60_4, np_arange_11_60_2. intros H.
  repeat (destruct H as [<- | H]; [simpl; tauto |]). destruct H.
Qed.

Lemma Qdiv_neg_unit (x m : Q) :
  (0 < m)%Q -> (0 < x)%Q -> (x <= m)%Q ->
  (-1 <= (- x) / m)%Q /\ ((- x) / m < 0)%Q.
Proof.
  intros Hm Hx Hxm. split.
  - apply Qle_shift_div_l; [exact Hm | lra].
  - apply Qlt_shift_div_r; [exact Hm | lra].
Qed.

Lemma Qdiv_third_unit (y m : Q) :
  (0 < m)%Q -> (0 < y)%Q -> (y <= m)%Q ->
  (0 < (- ((- y) / 3)) / m)%Q /\ ((- ((- y) / 3)) / m <= 1 # 3)%Q.
Proof.
  intros Hm Hy Hym.
  assert (E : (- ((- y) / 3) == y * (1 # 3))%Q) by field.
  split.
  - apply Qlt_shift_div_l; [exact Hm |]. rewrite E. lra.
  - apply Qle_shift_div_r; [exact Hm |]. rewrite E. lra.
Qed.

Section Template.

Variable pdf : NctPdf.

(** The density scipy returns is positive where the template samples it. *)
Hypothesis pdf_positive :
  forall x, In x (np_arange 11 60 2) -> (0 < pdf (inject_Z x) 5 20)%Q.

Let f (x : Z) : Q := pdf (inject_Z x) 5%Q 20%Q.
Let w1 : list Q := map (fun y => (- y) / 3)%Q (rev (map f (np_arange 11 60 4))).
Let w2 : list Q := map f (np_arange 11 60 2).

Lemma w1_elements (x : Q) :
  In x w1 -> exists y, x = ((- y) / 3)%Q /\ In y w2 /\ (0 < y)%Q.
Proof.
  unfold w1, w2. intros H. apply in_map_iff in H as (y & <- & Hy).
  apply in_rev, in_map_iff in Hy as (p & <- & Hp).
  apply coarse_grid_in_fine_grid in Hp.
  exists (f p). split; [reflexivity |]. split.
  - apply in_map. exact Hp.
  - apply pdf_positive. exact Hp.
Qed.

Lemma w2_elements (x : Q) : In x w2 -> (0 < x)%Q.
Proof.
  unfold w2. intros H. apply in_map_iff in H as (p & <- & Hp).
  apply pdf_positive. exact Hp.
Qed.

(** The scale [max(w)] is positive and is one of the values of the second
    piece; every value of the second piece is at most the scale. *)
Lemma template_scale (m : Q) :
  py_max (w1 ++ w2) = Ok m ->
  (0 < m)%Q /\ In m w2 /\ forall y, In y w2 -> (y <= m)%Q.
Proof.
  intros H. apply py_max_spec in H as [Hin Hub].
  assert (Hf : In (f 11) w2).
  { unfold w2. apply in_map. rewrite np_arange_11_60_2. left. reflexivity. }
  assert (Hm : (0 < m)%Q).
  { apply Qlt_le_trans with (f 11); [apply w2_elements; exact Hf |].
    apply Hub, in_or_app. right. exact Hf. }
  split; [exact Hm |]. split.
  - apply in_app_or in Hin as [Hin | Hin]; [| exact Hin].
    apply w1_elements in Hin as (y & E & _ & Hy). exfalso.
    assert (Hneg : ((- y) / 3 < 0)%Q)
      by (apply Qlt_shift_div_r; [reflexivity | lra]).
    rewrite <- E in Hneg. lra.
  - intros y Hy. apply Hub, in_or_app. right. exact Hy.
Qed.

(** After the division by [- max(w)], a value is either a deflection in
    [[-1, 0)] or an overshoot in [(0, 1/3]]. *)
Lemma template_values (m : Q) (w : list Q) :
  py_max (w1 ++ w2) = Ok m ->
  w = map (fun x => (- x) / m)%Q (w1 ++ w2) ->
  forall z, In z w ->
    ((-1 <= z)%Q /\ (z < 0)%Q) \/ ((0 < z)%Q /\ (z <= 1 # 3)%Q).
Proof.
  intros Hmax -> z Hz. destruct (template_scale m Hmax) as (Hm & _ & Hub).
  apply in_map_iff in Hz as (x & <- & Hx).
  apply in_app_or in Hx as [Hx | Hx].
  - right. apply w1_elements in Hx as (y & -> & Hy & Hpos).
    apply Qdiv_third_unit; [exact Hm | exact Hpos | apply Hub; exact Hy].
  - left. apply Qdiv_neg_unit;
      [exact Hm | apply w2_elements; exact Hx | apply Hub; exact Hx].
Qed.

Lemma template_abs_le_1 (m : Q) (w : list Q) :
  py_max (w1 ++ w2) = Ok m ->
  w = map (fun x => (- x) / m)%Q (w1 ++ w2) ->
  forall a, In a (np_abs w) -> (a <= 1)%Q.
Proof.
  intros Hmax Hw a Ha. unfold np_abs in Ha.
  apply in_map_iff in Ha as (z & <- & Hz).
  destruct (template_values m w Hmax Hw z Hz) as [[H1 H2] | [H1 H2]].
  - rewrite Qabs_neg by lra. lra.
  - rewrite Qabs_pos by lra. lra.
Qed.

Lemma template_abs_attains_1 (m : Q) (w : list Q) :
  py_max (w1 ++ w2) = Ok m ->
  w = map (fun x => (- x) / m)%Q (w1 ++ w2) ->
  exists a, In a (np_abs w) /\ (a == 1)%Q.
Proof.
  intros Hmax ->. destruct (template_scale m Hmax) as (Hm & Hin & _).
  exists (Qabs ((- m) / m)). split.
  - unfold np_abs. apply in_map.
    apply (in_map (fun x => (- x) / m)%Q). apply in_or_app. right. exact Hin.
  - assert (E : ((- m) / m == -1)%Q) by (field; lra).
    rewrite E. reflexivity.
Qed.

Lemma spike_template_unfold :
  spike_template pdf =
    (doR m <- py_max (w1 ++ w2); Ok (map (fun x => (- x) / m)%Q (w1 ++ w2))).
Proof. reflexivity. Qed.

End Template.

(** The template always has [13 + 25] samples. *)
Lemma spike_template_returns (pdf : NctPdf) :
  exists w, spike_template pdf = Ok w /\ length w = 38%nat.
Proof.
  rewrite spike_template_unfold.
  match goal with |- context [py_max ?l] => set (w := l) end.
  assert (Hlen : length w = 38%nat).
  { unfold w. rewrite length_app, !length_map, length_rev, length_map.
    rewrite np_arange_11_60_4, np_arange_11_60_2. reflexivity. }
  destruct (py_max_nonempty w) as [m Hm].
  { intros E. rewrite E in Hlen. discriminate Hlen. }
  rewrite Hm. eexists. split; [reflexivity |].
  rewrite length_map. exact Hlen.
Qed.

Lemma lookup_map_Some {A B} (f : A -> B) (l : list A) (i : nat) (b : B) :
  map f l !! i = Some b -> exists a, l !! i = Some a /\ b = f a.
Proof.
  revert i. induction l as [| x l IH]; intros [| i] H; simpl in H; try discriminate H.
  - injection H as <-. exists x. split; reflexivity.
  - apply IH in H. exact H.
Qed.

Lemma lookup_Some_In {A} (l : list A) (i : nat) (a : A) :
  l !! i = Some a -> In a l.
Proof.
  intros H. apply list_elem_of_In. eapply list_elem_of_lookup_2. exact H.
Qed.

(** C8. The template [w] that [read_spiketrain] synthesises, in lazy and
    in eager mode alike, is normalised: [max(abs(w))] is 1, and the value
    at the index of the largest magnitude is -1, a negative deflection.
    The density is scipy's; it is positive where it is sampled. *)
Theorem spike_template_normalised (pdf : NctPdf) :
  (forall x, In x (np_arange 11 60 2) -> (0 < pdf (inject_Z x) 5 20)%Q) ->
  exists w m v,
    spike_template pdf = Ok w /\
    py_max (np_abs w) = Ok m /\ (m == 1)%Q /\
    w !! np_argmax (np_abs w) = Some v /\ (v == -1)%Q /\ (v < 0)%Q.
Proof.
  intros Hpos.
  destruct (spike_template_returns pdf) as (w & Hw & Hlen).
  pose proof Hw as Hw'. rewrite spike_template_unfold in Hw'.
  apply result_bind_Ok_inv in Hw' as (s & Hs & Hws).
  injection Hws as Hws. symmetry in Hws.
  pose proof (template_values pdf Hpos s w Hs Hws) as Hvals.
  pose proof (template_abs_le_1 pdf Hpos s w Hs Hws) as Hle.
  destruct (template_abs_attains_1 pdf Hpos s w Hs Hws) as (a & Ha & Ea).
  assert (Hne : np_abs w <> []).
  { intros E. apply (f_equal length) in E. unfold np_abs in E.
    rewrite length_map, Hlen in E. discriminate E. }
  destruct (py_max_nonempty _ Hne) as [m Hm].
  destruct (py_max_spec _ _ Hm) as [Hmin Hmub].
  assert (Em : (m == 1)%Q).
  { apply Qle_antisym; [apply Hle; exact Hmin |].
    rewrite <- Ea. apply Hmub. exact Ha. }
  destruct (np_argmax_spec _ Hne) as (va & Hva & Hvub).
  unfold np_abs in Hva at 2.
  apply lookup_map_Some in Hva as (v & Hv & ->).
  assert (Hv1 : (Qabs v == 1)%Q).
  { apply Qle_antisym.
    - apply Hle. unfold np_abs. apply in_map. eapply lookup_Some_In. exact Hv.
    - rewrite <- Ea. apply Hvub. exact Ha. }
  assert (Ev : (v == -1)%Q).
  { destruct (Hvals v (lookup_Some_In _ _ _ Hv)) as [[H1 H2] | [H1 H2]].
    - rewrite Qabs_neg in Hv1 by lra. lra.
    - rewrite Qabs_pos in Hv1 by lra. lra. }
  exists w, m, v. repeat split; try assumption. rewrite Ev. reflexivity.
Qed.

(** ** read_spiketrain *)





(** *** The constructor's range check *)

Lemma existsb_false_Forall {A} (f : A -> bool) (l : list A) :
  existsb f l = false <-> Forall (fun x => f x = false) l.
Proof.
  induction l as [| x l IH]; simpl.
  - split; [constructor | reflexivity].
  - rewrite orb_false_iff, IH. split.
    + intros [Hx Hl]. constructor; assumption.
    + intros H. inversion H; subst. split; assumption.
Qed.

Lemma SpikeTrain_new_Ok (times : list Q) (t_start t_stop : Quantity)
    (units : pq) (name : string) :
  Forall (fun t => (magnitude t_start <= t)%Q /\ (t <= magnitude t_stop)%Q) times ->
  SpikeTrain_new times t_start t_stop units name
    = Ok (SpikeTrain_init times t_start t_stop units name).
Proof.
  intros H. unfold SpikeTrain_new.
  rewrite (proj2 (existsb_false_Forall _ times)).
  2:{ eapply Forall_impl; [exact H |]. intros t [Hlo _]. cbv beta.
      destruct (Qlt_le_dec t (magnitude t_start)) as [Hlt |]; [| reflexivity].
      exfalso. apply (Qlt_not_le _ _ Hlt). exact Hlo. }
  rewrite (proj2 (existsb_false_Forall _ times)); [reflexivity |].
  eapply Forall_impl; [exact H |]. intros t [_ Hhi]. cbv beta.
  destruct (Qlt_le_dec (magnitude t_stop) t) as [Hlt |]; [| reflexivity].
  exfalso. apply (Qlt_not_le _ _ Hlt). exact Hhi.
Qed.

Lemma SpikeTrain_new_inv (times : list Q) (t_start t_stop : Quantity)
    (units : pq) (name : string) (sptr : SpikeTrain) :
  SpikeTrain_new times t_start t_stop units name = Ok sptr ->
  sptr = SpikeTrain_init times t_start t_stop units name /\
  Forall (fun t => (magnitude t_start <= t)%Q /\ (t <= magnitude t_stop)%Q) times.
Proof.
  unfold SpikeTrain_new. intros H.
  destruct (existsb _ times) eqn:E1; [discriminate H |].
  destruct (existsb _ times) eqn:E2 in H; [discriminate H |].
  apply Ok_inj in H. split; [symmetry; exact H |].
  apply existsb_false_Forall in E1. apply existsb_false_Forall in E2.
  apply Forall_forall. intros t Ht.
  rewrite Forall_forall in E1, E2. specialize (E1 t Ht). specialize (E2 t Ht).
  cbv beta in E1, E2. split.
  - destruct (Qlt_le_dec t (magnitude t_start)); [discriminate E1 | assumption].
  - destruct (Qlt_le_dec (magnitude t_stop) t); [discriminate E2 | assumption].
Qed.

Lemma SpikeTrain_new_Raise (times : list Q) (t_start t_stop : Quantity)
    (units : pq) (name : string) (e : exn) :
  SpikeTrain_new times t_start t_stop units name = Raise e ->
  exists msg, e = ValueError msg.
Proof.
  unfold SpikeTrain_new. intros H.
  destruct (existsb _ times); [injection H as <-; eexists; reflexivity |].
  destruct (existsb _ times); [injection H as <-; eexists; reflexivity |].
  discriminate H.
Qed.

Lemma times_in_closed_window (segment_duration t_start : Q) (r : list Q) :
  (0 <= segment_duration)%Q ->
  Forall (fun x => (0 <= x)%Q /\ (x < 1)%Q) r ->
  Forall (fun t => (t_start <= t)%Q /\ (t <= t_start + segment_duration)%Q)
         (map (fun x => x * segment_duration + t_start)%Q r).
Proof.
  intros Hd Hr. induction Hr as [| x r [H0 H1] _ IH]; simpl; constructor.
  - split; nra.
  - exact IH.
Qed.

(** What an eager call computes when scipy was imported: it draws the 40
    times, and the constructor decides whether a train comes back. *)
Lemma read_spiketrain_eager_cases (g : Globals) (self : KwikIO) (cascade : bool)
    (segment_duration t_start : Q) (channel_index : Z) (pdf : NctPdf)
    (w : list Q) st :
  HAVE_SCIPY g = true -> stats g = Some pdf -> spike_template pdf = Ok w ->
  exists times st1,
    np_random_rand_n 40 st = (st1, Ok times) /\
    match SpikeTrain_new (map (fun x => x * segment_duration + t_start)%Q times)
            (mkQuantity t_start pq_s)
            (mkQuantity (t_start + segment_duration)%Q pq_s) pq_s
            "it is a spiketrain from exampleio" with
    | Ok spiketr =>
        exists noise st2,
          np_random_randn 40 1 (length w) st1 = (st2, Ok noise) /\
          read_spiketrain g self false cascade segment_duration t_start
            channel_index st =
            (st2,
             Ok (sptr_annotate "channel_index" (AnnInt channel_index)
                  (sptr_set_waveforms (perturb (tile w 40) noise, pq_mV)
                     (mkQuantity 10000 pq_Hz) (mkQuantity 1.5 pq_s) spiketr)))
    | Raise e =>
        read_spiketrain g self false cascade segment_duration t_start
          channel_index st = (st1, Raise e)
    end.
Proof.
  intros HS Hstats Hw. do 2 eexists. split; [reflexivity |].
  destruct (SpikeTrain_new _ _ _ _ _) as [spiketr | e] eqn:Enew.
  - do 2 eexists. split; [reflexivity |].
    unfold read_spiketrain. rewrite HS, Hstats. unfold negb.
    unfold bind at 1. unfold ret at 1.
    unfold bind at 1. unfold bind at 1. rewrite np_random_rand_n_run.
    unfold ret at 1.
    unfold bind at 1. unfold lift at 1. rewrite Enew.
    unfold bind at 1. unfold global, ret at 1.
    unfold bind at 1. unfold lift. rewrite Hw.
    unfold bind at 1. unfold bind at 1.
    reflexivity.
  - unfold read_spiketrain. rewrite HS, Hstats. unfold negb.
    unfold bind at 1. unfold ret at 1.
    unfold bind at 1. unfold bind at 1. rewrite np_random_rand_n_run.
    unfold ret at 1.
    unfold bind at 1. unfold lift at 1. rewrite Enew.
    reflexivity.
Qed.

(** For a segment duration that is not negative the constructor accepts
    the times and the train comes back. *)
Lemma read_spiketrain_eager_run (g : Globals) (self : KwikIO) (cascade : bool)
    (segment_duration t_start : Q) (channel_index : Z) (pdf : NctPdf)
    (w : list Q) st :
  HAVE_SCIPY g = true -> stats g = Some pdf -> spike_template pdf = Ok w ->
  (0 <= segment_duration)%Q ->
  exists times noise st1 st2,
    np_random_rand_n 40 st = (st1, Ok times) /\
    np_random_randn 40 1 (length w) st1 = (st2, Ok noise) /\
    read_spiketrain g self false cascade segment_duration t_start channel_index st =
      (st2,
       Ok (sptr_annotate "channel_index" (AnnInt channel_index)
            (sptr_set_waveforms (perturb (tile w 40) noise, pq_mV)
               (mkQuantity 10000 pq_Hz) (mkQuantity 1.5 pq_s)
               (SpikeTrain_init
                  (map (fun x => x * segment_duration + t_start)%Q times)
                  (mkQuantity t_start pq_s)
                  (mkQuantity (t_start + segment_duration)%Q pq_s) pq_s
                  "it is a spiketrain from exampleio")))).
Proof.
  intros HS Hstats Hw Hd.
  destruct (read_spiketrain_eager_cases g self cascade segment_duration t_start
              channel_index pdf w st HS Hstats Hw)
    as (times & st1 & Htimes & Hcases).
  rewrite SpikeTrain_new_Ok in Hcases.
  2:{ cbn [magnitude]. apply times_in_closed_window; [exact Hd |].
      eapply rand_n_draws_in_unit_interval. exact Htimes. }
  destruct Hcases as (noise & st2 & Hnoise & Hrun).
  exists times, noise, st1, st2. repeat split; assumption.
Qed.

(** Whatever the segment duration, an eager call that returns has drawn
    the 40 times and the noise, and the constructor has found every time
    within the bounds of the train. *)
Lemma read_spiketrain_eager_inv (g : Globals) (self : KwikIO) (cascade : bool)
    (segment_duration t_start : Q) (channel_index : Z) (pdf : NctPdf)
    (w : list Q) st st' sptr :
  HAVE_SCIPY g = true -> stats g = Some pdf -> spike_template pdf = Ok w ->
  read_spiketrain g self false cascade segment_duration t_start channel_index st
    = (st', Ok sptr) ->
  exists times noise st1,
    np_random_rand_n 40 st = (st1, Ok times) /\
    np_random_randn 40 1 (length w) st1 = (st', Ok noise) /\
    Forall (fun t => (t_start <= t)%Q /\ (t <= t_start + segment_duration)%Q)
           (map (fun x => x * segment_duration + t_start)%Q times) /\
    sptr =
      sptr_annotate "channel_index" (AnnInt channel_index)
        (sptr_set_waveforms (perturb (tile w 40) noise, pq_mV)
           (mkQuantity 10000 pq_Hz) (mkQuantity 1.5 pq_s)
           (SpikeTrain_init
              (map (fun x => x * segment_duration + t_start)%Q times)
              (mkQuantity t_start pq_s)
              (mkQuantity (t_start + segment_duration)%Q pq_s) pq_s
              "it is a spiketrain from exampleio")).
Proof.
  intros HS Hstats Hw H.
  destruct (read_spiketrain_eager_cases g self cascade segment_duration t_start
              channel_index pdf w st HS Hstats Hw)
    as (times & st1 & Htimes & Hcases).
  destruct (SpikeTrain_new _ _ _ _ _) as [spiketr | e] eqn:Enew.
  - destruct Hcases as (noise & st2 & Hnoise & Hrun).
    rewrite Hrun in H. injection H as <- <-.
    apply SpikeTrain_new_inv in Enew as [-> Hin].
    exists times, noise, st1. repeat split; assumption.
  - rewrite Hcases in H. discriminate H.
Qed.

(** What a lazy call computes when scipy was imported. *)
Lemma read_spiketrain_lazy_run (g : Globals) (self : KwikIO) (cascade : bool)
    (segment_duration t_start : Q) (channel_index : Z) (pdf : NctPdf) st :
  HAVE_SCIPY g = true -> stats g = Some pdf ->
  read_spiketrain g self true cascade segment_duration t_start channel_index st =
    (st,
     Ok (sptr_annotate "channel_index" (AnnInt channel_index)
          (sptr_set_lazy_shape [40%nat]
             (SpikeTrain_init [] (mkQuantity t_start pq_s)
                (mkQuantity (t_start + segment_duration)%Q pq_s) pq_s
                "it is a spiketrain from exampleio")))).
Proof.
  intros HS Hstats.
  destruct (spike_template_returns pdf) as (w & Hw & _).
  unfold read_spiketrain. rewrite HS, Hstats. unfold negb.
  unfold bind at 1. unfold ret at 1.
  unfold bind at 1. unfold ret at 1.
  unfold bind at 1. unfold lift at 1. cbn [SpikeTrain_new existsb].
  unfold bind at 1. unfold global, ret at 1.
  unfold bind at 1. unfold lift. rewrite Hw.
  reflexivity.
Qed.

(** Without scipy the call raises what the import raised, before it
    draws anything. *)
Lemma read_spiketrain_without_scipy (g : Globals) (self : KwikIO)
    (lazy cascade : bool) (segment_duration t_start : Q) (channel_index : Z)
    (err : exn) st :
  HAVE_SCIPY g = false -> SCIPY_ERR g = Some err ->
  read_spiketrain g self lazy cascade segment_duration t_start channel_index st =
    (st, Raise err).
Proof.
  intros HS Herr. unfold read_spiketrain. rewrite HS, Herr. reflexivity.
Qed.

(** Whatever the mode, a train that is returned carries the channel it was
    asked for. *)
Lemma read_spiketrain_channel (g : Globals) (self : KwikIO)
    (lazy cascade : bool) (segment_duration t_start : Q) (channel_index : Z)
    st st' sptr :
  read_spiketrain g self lazy cascade segment_duration t_start channel_index st =
    (st', Ok sptr) ->
  sptr_channel sptr = Some (AnnInt channel_index).
Proof.
  unfold read_spiketrain. intros H.
  apply bind_Ok_inv in H as (u & st1 & _ & H).
  apply bind_Ok_inv in H as (times & st2 & _ & H).
  apply bind_Ok_inv in H as (spiketr0 & st2' & _ & H).
  apply bind_Ok_inv in H as (pdf & st3 & _ & H).
  apply bind_Ok_inv in H as (w & st4 & _ & H).
  apply bind_Ok_inv in H as (spiketr & st5 & _ & H).
  apply ret_inv in H as [_ E]. rewrite E.
  unfold sptr_channel, sptr_annotate. simpl. apply lookup_insert_eq.
Qed.

Lemma globals_at_call_with_scipy (pdf : NctPdf) (tv : option (list Q)) (g : Globals) :
  globals_at_call (Ok pdf) tv = Ok g ->
  HAVE_SCIPY g = true /\ stats g = Some pdf /\ timevect g = tv.
Proof.
  unfold globals_at_call. simpl. intros H. injection H as <-.
  destruct tv; simpl; repeat split; reflexivity.
Qed.

Lemma globals_at_call_without_scipy (m : string) (tv : option (list Q)) (g : Globals) :
  globals_at_call (Raise (ImportError m)) tv = Ok g ->
  HAVE_SCIPY g = false /\ SCIPY_ERR g = Some (ImportError m) /\ timevect g = tv.
Proof.
  unfold globals_at_call. simpl. intros H. injection H as <-.
  destruct tv; simpl; repeat split; reflexivity.
Qed.


(** ** read_analogsignal *)

Lemma attr_Some (a : gmap string Q) (key : string) (v : Q) :
  a !! key = Some v -> attr a key = Ok v.
Proof. unfold attr. intros ->. reflexivity. Qed.

Lemma dataset_row_length (d : Dataset) (i : Z) (row : list Z) :
  dataset_row d i = Ok row -> length row = shape1 d.
Proof.
  unfold dataset_row. intros H.
  repeat case_decide; try discriminate H; injection H as <-;
    rewrite length_map, length_seq; reflexivity.
Qed.

Lemma dataset_row_in_range (d : Dataset) (i : Z) :
  (0 <= i < Z.of_nat (shape0 d))%Z ->
  dataset_row d i = Ok (map (cell d (Z.to_nat i)) (seq 0 (shape1 d))).
Proof.
  intros H. unfold dataset_row. rewrite decide_True by exact H. reflexivity.
Qed.

(** The eager branch on a recording that has the row and the attributes. *)
Lemma read_analogsignal_eager_run (g : Globals) (self : KwikIO) (kwd : H5File)
    (channel_index dataset : Z) (rec : Recording) (d : Dataset) (r s : Q) :
  kwd_recording kwd dataset = Ok rec ->
  data rec = Some d ->
  attrs rec !! "sample_rate" = Some r ->
  attrs rec !! "start_time" = Some s ->
  (0 <= channel_index < Z.of_nat (shape0 d))%Z ->
  read_analogsignal g self false kwd channel_index dataset =
    Ok (ana_annotate "info" (AnnStr "What to insert metadata")
          (AnalogSignal_new
             (map (cell d (Z.to_nat channel_index)) (seq 0 (shape1 d)))
             pq_V (mkQuantity r pq_Hz) (mkQuantity s pq_s) channel_index)).
Proof.
  intros Hrec Hd Hr Hs Hi.
  unfold read_analogsignal, kwd_attrs, kwd_data. rewrite Hrec.
  cbn [result_bind]. rewrite Hd. cbn [result_bind].
  rewrite (dataset_row_in_range d channel_index Hi). cbn [result_bind].
  rewrite (attr_Some _ _ _ Hr), (attr_Some _ _ _ Hs). reflexivity.
Qed.

(** The lazy branch on a recording that has the three attributes. *)
Lemma read_analogsignal_lazy_run (g : Globals) (self : KwikIO) (kwd : H5File)
    (channel_index dataset : Z) (rec : Recording) (r s n : Q) :
  kwd_recording kwd dataset = Ok rec ->
  attrs rec !! "sample_rate" = Some r ->
  attrs rec !! "start_time" = Some s ->
  attrs rec !! "shape" = Some n ->
  read_analogsignal g self true kwd channel_index dataset =
    Ok (ana_annotate "info" (AnnStr "What to insert metadata")
          (ana_set_lazy_shape n
             (AnalogSignal_new [] pq_V (mkQuantity r pq_Hz) (mkQuantity s pq_s)
                channel_index))).
Proof.
  intros Hrec Hr Hs Hn.
  unfold read_analogsignal, kwd_attrs. rewrite Hrec. cbn [result_bind].
  rewrite (attr_Some _ _ _ Hr), (attr_Some _ _ _ Hs), (attr_Some _ _ _ Hn).
  reflexivity.
Qed.

(** What any eager result looks like: as many samples as the dataset has
    columns, and no declared shape. *)
Lemma read_analogsignal_eager_inv (g : Globals) (self : KwikIO) (kwd : H5File)
    (channel_index dataset : Z) (d : Dataset) (sig : AnalogSignal) :
  kwd_data kwd dataset = Ok d ->
  read_analogsignal g self false kwd channel_index dataset = Ok sig ->
  length (ana_signal sig) = shape1 d /\
  ana_lazy_shape sig = None /\
  ana_channel_index sig = channel_index.
Proof.
  intros Hd H. unfold read_analogsignal in H.
  apply result_bind_Ok_inv in H as (a & _ & H).
  apply result_bind_Ok_inv in H as (anasig & H & E). injection E as <-.
  rewrite Hd in H. simpl in H.
  apply result_bind_Ok_inv in H as (row & Hrow & H).
  apply result_bind_Ok_inv in H as (r & _ & H).
  apply result_bind_Ok_inv in H as (s & _ & H). injection H as <-. simpl.
  split; [eapply dataset_row_length; exact Hrow |]. split; reflexivity.
Qed.

(** What any lazy result looks like: no samples, and the declared shape is
    the attribute [shape]. *)
Lemma read_analogsignal_lazy_inv (g : Globals) (self : KwikIO) (kwd : H5File)
    (channel_index dataset : Z) (sig : AnalogSignal) :
  read_analogsignal g self true kwd channel_index dataset = Ok sig ->
  ana_signal sig = [] /\
  ana_channel_index sig = channel_index /\
  exists a n, kwd_attrs kwd dataset = Ok a /\ a !! "shape" = Some n /\
              ana_lazy_shape sig = Some n.
Proof.
  intros H. unfold read_analogsignal in H.
  apply result_bind_Ok_inv in H as (a & Ha & H).
  apply result_bind_Ok_inv in H as (anasig & H & E). injection E as <-.
  apply result_bind_Ok_inv in H as (r & _ & H).
  apply result_bind_Ok_inv in H as (s & _ & H).
  apply result_bind_Ok_inv in H as (n & Hn & H). injection H as <-. simpl.
  split; [reflexivity |]. split; [reflexivity |].
  exists a, n. split; [exact Ha |]. split; [| reflexivity].
  unfold attr in Hn. destruct (a !! "shape") as [v |]; [| discriminate Hn].
  injection Hn as ->. reflexivity.
Qed.

Lemma read_analogsignal_channel (g : Globals) (self : KwikIO) (lazy : bool)
    (kwd : H5File) (channel_index dataset : Z) (sig : AnalogSignal) :
  read_analogsignal g self lazy kwd channel_index dataset = Ok sig ->
  ana_channel_index sig = channel_index.
Proof.
  destruct lazy; intros H.
  - apply read_analogsignal_lazy_inv in H. tauto.
  - unfold read_analogsignal in H.
    apply result_bind_Ok_inv in H as (a & _ & H).
    apply result_bind_Ok_inv in H as (anasig & H & E). injection E as <-.
    apply result_bind_Ok_inv in H as (d & _ & H).
    apply result_bind_Ok_inv in H as (row & _ & H).
    apply result_bind_Ok_inv in H as (r & _ & H).
    apply result_bind_Ok_inv in H as (s & _ & H). injection H as <-.
    reflexivity.
Qed.

(** With scipy imported a call of [read_spiketrain] returns when it is
    lazy or the segment duration is not negative. *)
Lemma read_spiketrain_returns (g : Globals) (self : KwikIO) (lazy cascade : bool)
    (segment_duration t_start : Q) (channel_index : Z) (pdf : NctPdf) st :
  HAVE_SCIPY g = true -> stats g = Some pdf ->
  lazy = true \/ (0 <= segment_duration)%Q ->
  exists sptr st',
    read_spiketrain g self lazy cascade segment_duration t_start channel_index st
      = (st', Ok sptr).
Proof.
  intros HS Hstats Hd.
  destruct (spike_template_returns pdf) as (w & Hw & _). destruct lazy.
  - eexists _, _. apply read_spiketrain_lazy_run with (pdf := pdf); assumption.
  - destruct Hd as [Hd | Hd]; [discriminate Hd |].
    destruct (read_spiketrain_eager_run g self cascade segment_duration t_start
                channel_index pdf w st HS Hstats Hw Hd)
      as (times & noise & st1 & st2 & _ & _ & Hrun).
    eexists _, st2. exact Hrun.
Qed.

(** With scipy imported the only exception a call of [read_spiketrain]
    can raise is the constructor's [ValueError]. *)
Lemma read_spiketrain_raises_only_ValueError (g : Globals) (self : KwikIO)
    (lazy cascade : bool) (segment_duration t_start : Q) (channel_index : Z)
    (pdf : NctPdf) st st' e :
  HAVE_SCIPY g = true -> stats g = Some pdf ->
  read_spiketrain g self lazy cascade segment_duration t_start channel_index st
    = (st', Raise e) ->
  exists msg, e = ValueError msg.
Proof.
  intros HS Hstats H.
  destruct (spike_template_returns pdf) as (w & Hw & _). destruct lazy.
  - rewrite (read_spiketrain_lazy_run g self cascade segment_duration t_start
               channel_index pdf st HS Hstats) in H.
    discriminate H.
  - destruct (read_spiketrain_eager_cases g self cascade segment_duration t_start
                channel_index pdf w st HS Hstats Hw)
      as (times & st1 & _ & Hcases).
    destruct (SpikeTrain_new _ _ _ _ _) as [spiketr | e0] eqn:Enew.
    + destruct Hcases as (noise & st2 & _ & Hrun). rewrite Hrun in H.
      discriminate H.
    + rewrite Hcases in H. injection H as _ <-.
      eapply SpikeTrain_new_Raise. exact Enew.
Qed.

(** C9. When the import of scipy failed, the module still loads, and
    every call of [read_spiketrain] raises the import's error before it
    does anything else, while [read_analogsignal] computes what it
    computes when scipy is there; when the import succeeded, no call of
    [read_spiketrain] raises an import error: it returns a train when it
    is lazy or the segment duration is not negative, and all it can raise
    otherwise is the [ValueError] of the train's constructor. *)
Theorem missing_scipy_fails_spiketrain_only (m : string)
    (tv : option (list Q)) :
  exists g,
    globals_at_call (Raise (ImportError m)) tv = Ok g /\
    (forall self lazy cascade segment_duration t_start channel_index st,
        read_spiketrain g self lazy cascade segment_duration t_start
          channel_index st = (st, Raise (ImportError m))) /\
    (forall pdf, exists g',
        globals_at_call (Ok pdf) tv = Ok g' /\
        (forall self lazy kwd channel_index dataset,
            read_analogsignal g self lazy kwd channel_index dataset =
            read_analogsignal g' self lazy kwd channel_index dataset) /\
        (forall self lazy kwd channel_index dataset rec d r s n,
            kwd_recording kwd dataset = Ok rec ->
            data rec = Some d ->
            attrs rec !! "sample_rate" = Some r ->
            attrs rec !! "start_time" = Some s ->
            attrs rec !! "shape" = Some n ->
            (0 <= channel_index < Z.of_nat (shape0 d))%Z ->
            exists sig,
              read_analogsignal g self lazy kwd channel_index dataset = Ok sig) /\
        (forall self lazy cascade segment_duration t_start channel_index st st' e,
            read_spiketrain g' self lazy cascade segment_duration t_start
              channel_index st = (st', Raise e) ->
            (forall m', e <> ImportError m') /\ exists msg, e = ValueError msg) /\
        (forall self lazy cascade segment_duration t_start channel_index st,
            lazy = true \/ (0 <= segment_duration)%Q ->
            exists sptr st',
              read_spiketrain g' self lazy cascade segment_duration t_start
                channel_index st = (st', Ok sptr))).
Proof.
  destruct (globals_at_call (Raise (ImportError m)) tv) as [g | e] eqn:Hg;
    [| destruct tv; discriminate Hg].
  exists g. split; [reflexivity |].
  apply globals_at_call_without_scipy in Hg as (HS & Herr & _).
  split.
  - intros. apply read_spiketrain_without_scipy; assumption.
  - intros pdf.
    destruct (globals_at_call (Ok pdf) tv) as [g' | e] eqn:Hg';
      [| destruct tv; discriminate Hg'].
    exists g'. split; [reflexivity |].
    apply globals_at_call_with_scipy in Hg' as (HS' & Hstats' & _).
    split; [| split; [| split]].
    + intros. reflexivity.
    + intros self [|] kwd channel_index dataset rec d r s n Hrec Hd Hr Hs Hn Hi.
      * eexists. eapply read_analogsignal_lazy_run; eassumption.
      * eexists. eapply read_analogsignal_eager_run; eassumption.
    + intros self lazy cascade segment_duration t_start channel_index st st' e H.
      destruct (read_spiketrain_raises_only_ValueError g' self lazy cascade
                  segment_duration t_start channel_index pdf st st' e
                  HS' Hstats' H) as [msg ->].
      split; [intros m'; discriminate | exists msg; reflexivity].
    + intros self lazy cascade segment_duration t_start channel_index st Hd.
      apply read_spiketrain_returns with (pdf := pdf); assumption.
Qed.

(** ** read_stimulus *)

Lemma draw_label_run (l : list string) st :
  draw_label l st =
    (mkRandomState (words st) (normals st) (S (upos st)) (npos st),
     Ok (l ++ [label_of_draw (uniform_of_word (words st (upos st)))])).
Proof.
  unfold draw_label, bind, np_random_rand, label_of_draw, ret.
  destruct (Qlt_le_dec 0.6 (uniform_of_word (words st (upos st)))); reflexivity.
Qed.

(** The labels loop appends one label per draw, in the order of the draws. *)
Lemma labels_loop_run {A} (xs : list A) : forall (l : list string) st,
  for_each xs (fun _ l => draw_label l) l st =
    (mkRandomState (words st) (normals st) (upos st + length xs) (npos st),
     Ok (l ++ map (fun i => label_of_draw (uniform_of_word (words st (upos st + i))))
                  (seq 0 (length xs)))).
Proof.
  induction xs as [| x xs IH]; intros l st.
  - simpl. unfold ret. rewrite Nat.add_0_r, app_nil_r. destruct st; reflexivity.
  - cbn [for_each]. rewrite (bind_Ok _ _ _ _ _ (draw_label_run l st)).
    rewrite IH. cbn [words normals upos npos length].
    f_equal.
    + f_equal. lia.
    + f_equal. rewrite <- app_assoc. f_equal. cbn [seq map app].
      rewrite Nat.add_0_r. f_equal.
      rewrite <- seq_shift, map_map. apply map_ext. intros i.
      do 3 f_equal. lia.
Qed.

Lemma np_item_in_range (a : list Q) (i : Z) :
  (0 <= i < Z.of_nat (length a))%Z -> exists x, np_item a i = Ok x.
Proof.
  intros Hi. unfold np_item. cbv zeta.
  destruct (decide (i < 0)%Z) as [Hneg | _]; [lia |].
  rewrite decide_True by exact Hi.
  destruct (a !! Z.to_nat i) as [x |] eqn:E; [exists x; reflexivity |].
  apply lookup_ge_None in E. lia.
Qed.

Lemma np_take_in_range (a : list Q) (idx : list Z) :
  Forall (fun i => (0 <= i < Z.of_nat (length a))%Z) idx ->
  exists xs, np_take a idx = Ok xs /\ length xs = length idx.
Proof.
  induction 1 as [| i idx Hi _ (xs & Hxs & Hlen)]; simpl.
  - exists []. split; reflexivity.
  - destruct (np_item_in_range a i Hi) as [x ->]. rewrite Hxs. simpl.
    exists (x :: xs). split; [reflexivity |]. simpl. rewrite Hlen. reflexivity.
Qed.

Lemma Qmult_unit_interval (x s : Q) :
  (0 <= x)%Q -> (x < 1)%Q -> (0 < s)%Q -> (0 <= x * s)%Q /\ (x * s < s)%Q.
Proof. intros H0 H1 Hs. split; nra. Qed.

(** A uniform draw scaled by the size of a non-empty vector truncates to
    one of its indices. *)
Lemma astype_i_index (x : Q) (n : nat) :
  (0 <= x)%Q -> (x < 1)%Q -> (0 < n)%nat ->
  (0 <= astype_i (x * inject_Z (Z.of_nat n)) < Z.of_nat n)%Z.
Proof.
  intros H0 H1 Hn.
  assert (Hs : (0 < inject_Z (Z.of_nat n))%Q).
  { change 0%Q with (inject_Z 0). rewrite <- Zlt_Qlt. lia. }
  destruct (Qmult_unit_interval x (inject_Z (Z.of_nat n)) H0 H1 Hs) as [Hlo Hhi].
  unfold astype_i.
  destruct (Qlt_le_dec (x * inject_Z (Z.of_nat n)) 0) as [Hneg | _].
  - exfalso. apply (Qlt_not_le _ _ Hneg). exact Hlo.
  - split.
    + change 0%Z with (Qfloor 0). apply Qfloor_resp_le. exact Hlo.
    + rewrite Zlt_Qlt.
      apply Qle_lt_trans with (x * inject_Z (Z.of_nat n))%Q;
        [apply Qfloor_le | exact Hhi].
Qed.

(** The eager branch when [timevect] is bound to a non-empty vector. *)
Lemma read_stimulus_eager_run (g : Globals) (self : KwikIO) (tv : list Q) st :
  timevect g = Some tv -> tv <> [] ->
  exists times,
    length times = 1000%nat /\
    read_stimulus g self false st =
      (mkRandomState (words st) (normals st) (upos st + 1000 + 1000) (npos st),
       Ok (mkEpochArray (mkQuantityArray times pq_s)
             (mkQuantityArray (map (fun one => one * 500)%Q (repeat 1%Q 1000)) pq_ms)
             (map (fun i => label_of_draw
                      (uniform_of_word (words st (upos st + 1000 + i))))
                  (seq 0 1000))
             None)).
Proof.
  intros Htv Hne.
  set (idx := map (fun x => astype_i (x * inject_Z (Z.of_nat (length tv))))
                  (map (fun i => uniform_of_word (words st (upos st + i)))
                       (seq 0 1000))).
  destruct (np_take_in_range tv idx) as (times & Htimes & Hlen).
  { unfold idx. apply Forall_forall. intros i Hi.
    apply list_elem_of_In, in_map_iff in Hi as (x & <- & Hx).
    apply in_map_iff in Hx as (k & <- & _).
    destruct (uniform_of_word_range (words st (upos st + k))) as [H0 H1].
    apply astype_i_index; [exact H0 | exact H1 |].
    destruct tv; [contradiction | simpl; lia]. }
  exists times. split.
  { rewrite Hlen. unfold idx. rewrite !length_map, length_seq. reflexivity. }
  unfold read_stimulus. rewrite Htv. unfold global.
  unfold bind at 1. unfold ret at 1.
  unfold bind at 1. rewrite np_random_rand_n_run.
  unfold bind at 1. unfold lift. fold idx. rewrite Htimes.
  unfold bind at 1. rewrite labels_loop_run.
  unfold range. rewrite length_seq. cbn [words normals upos npos].
  unfold ret, EpochArray_new. cbn [epo_segment app]. reflexivity.
Qed.

(** The eager branch when [timevect] is not bound: the name fails to
    resolve before anything is drawn. *)
Lemma read_stimulus_eager_unbound (g : Globals) (self : KwikIO) st :
  timevect g = None ->
  read_stimulus g self false st = (st, Raise (NameError "timevect")).
Proof. intros H. unfold read_stimulus. rewrite H. reflexivity. Qed.

Lemma read_stimulus_lazy_run (g : Globals) (self : KwikIO) st :
  read_stimulus g self true st = (st, Ok EpochArray_new).
Proof. reflexivity. Qed.

Lemma label_of_draw_A (r : Q) : label_of_draw r = "TriggerA" <-> (0.6 < r)%Q.
Proof.
  unfold label_of_draw. destruct (Qlt_le_dec 0.6 r) as [H | H]; split; intros H'.
  - exact H.
  - reflexivity.
  - discriminate H'.
  - exfalso. apply (Qlt_not_le _ _ H'). exact H.
Qed.

Lemma label_of_draw_B (r : Q) : label_of_draw r = "TriggerB" <-> ~ (0.6 < r)%Q.
Proof.
  unfold label_of_draw. destruct (Qlt_le_dec 0.6 r) as [H | H]; split; intros H'.
  - discriminate H'.
  - contradiction.
  - apply Qle_not_lt. exact H.
  - reflexivity.
Qed.

(** A draw exceeds 0.6 exactly when its 53-bit word is one of the upper
    [2^53 - 5404319552844596] words, a share of 0.4 up to [2^-53]. *)
Lemma draw_exceeds_threshold (k : N) :
  (0.6 < uniform_of_word k)%Q <-> (5404319552844596 <= k mod 2 ^ 53)%N.
Proof.
  unfold uniform_of_word, Qlt. cbn [Qnum Qden].
  change (Z.pos (2 ^ 53)) with 9007199254740992%Z.
  split; intros H.
  - apply N2Z.inj_le. change (Z.of_N 5404319552844596) with 5404319552844596%Z.
    change (Qnum 0.6) with 6%Z in H. change (Z.pos (Qden 0.6)) with 10%Z in H.
    lia.
  - apply N2Z.inj_le in H. change (Z.of_N 5404319552844596) with 5404319552844596%Z in H.
    change (Qnum 0.6) with 6%Z. change (Z.pos (Qden 0.6)) with 10%Z.
    lia.
Qed.

(** Of the [2^53] words a draw can be made of, [2^53 - 5404319552844596]
    give "TriggerA": a share below 0.4 by less than [2^-53]. *)
Lemma trigger_A_share :
  (2 ^ 53 - 5404319552844596 = 3602879701896396)%N /\
  (3602879701896396 # 2 ^ 53 < 0.4)%Q /\
  (0.4 - (1 # 2 ^ 53) < 3602879701896396 # 2 ^ 53)%Q.
Proof. repeat split. Qed.

Lemma lookup_map_seq {A} (f : nat -> A) (n i : nat) : forall start,
  (i < n)%nat -> map f (seq start n) !! i = Some (f (start + i)%nat).
Proof.
  revert i. induction n as [| n IH]; intros i start Hi; [lia |].
  destruct i as [| i]; simpl.
  - rewrite Nat.add_0_r. reflexivity.
  - rewrite IH by lia. f_equal. f_equal. lia.
Qed.

Lemma load_module_leaves_timevect_unbound (scipy : result NctPdf) (g : Globals) :
  load_module scipy = Ok g -> timevect g = None.
Proof.
  unfold load_module. destruct scipy as [pdf | []]; intros H;
    try discriminate H; injection H as <-; reflexivity.
Qed.

(** C7. A lazy call returns three empty sequences.  An eager call, once
    [timevect] is bound to a non-empty vector, returns 1000 onset times,
    1000 durations of 500 ms and 1000 labels, and the label at position
    [i] is "TriggerA" exactly when the draw made for it exceeds 0.6,
    "TriggerB" otherwise. *)
Theorem read_stimulus_epochs :
  (forall g self st,
      exists epo,
        read_stimulus g self true st = (st, Ok epo) /\
        magnitudes (epo_times epo) = [] /\
        magnitudes (epo_durations epo) = [] /\
        epo_labels epo = []) /\
  (forall g self st tv,
      timevect g = Some tv -> tv <> [] ->
      exists epo st',
        read_stimulus g self false st = (st', Ok epo) /\
        length (magnitudes (epo_times epo)) = 1000%nat /\
        length (magnitudes (epo_durations epo)) = 1000%nat /\
        length (epo_labels epo) = 1000%nat /\
        units_of (epo_durations epo) = pq_ms /\
        Forall (fun d => (d == 500)%Q) (magnitudes (epo_durations epo)) /\
        forall i, (i < 1000)%nat ->
          let draw := uniform_of_word (words st (upos st + 1000 + i)) in
          exists label,
            epo_labels epo !! i = Some label /\
            (label = "TriggerA" <-> (0.6 < draw)%Q) /\
            (label = "TriggerB" <-> ~ (0.6 < draw)%Q)).
Proof.
  split.
  - intros g self st. exists EpochArray_new. repeat split; reflexivity.
  - intros g self st tv Htv Hne.
    destruct (read_stimulus_eager_run g self tv st Htv Hne) as (times & Hlen & Hrun).
    eexists _, _. split; [exact Hrun |]. cbn [epo_times epo_durations epo_labels magnitudes units_of].
    split; [exact Hlen |].
    split; [rewrite length_map, repeat_length; reflexivity |].
    split; [rewrite length_map, length_seq; reflexivity |].
    split; [reflexivity |]. split.
    + apply Forall_forall. intros d Hd.
      apply list_elem_of_In, in_map_iff in Hd as (one & <- & Hone).
      apply repeat_spec in Hone. subst one. reflexivity.
    + intros i Hi.
      exists (label_of_draw (uniform_of_word (words st (upos st + 1000 + i)))).
      split.
      * rewrite lookup_map_seq by exact Hi. reflexivity.
      * split; [apply label_of_draw_A | apply label_of_draw_B].
Qed.

(** C10. The module binds no [timevect]: right after loading, every
    eager call of [read_stimulus] stops with a [NameError] for that name,
    before any draw.  A lazy call never reads the name and returns the
    empty collection whatever the globals.  Once the process has bound the
    name to a non-empty vector, the eager call completes. *)
Theorem read_stimulus_timevect_unbound :
  (forall scipy g self st,
      load_module scipy = Ok g ->
      timevect g = None /\
      read_stimulus g self false st = (st, Raise (NameError "timevect"))) /\
  (forall g self st,
      read_stimulus g self true st = (st, Ok EpochArray_new)) /\
  (forall g tv self st,
      tv <> [] ->
      exists epo st',
        read_stimulus (supply_timevect tv g) self false st = (st', Ok epo)).
Proof.
  split; [| split].
  - intros scipy g self st Hload.
    pose proof (load_module_leaves_timevect_unbound scipy g Hload) as Hnone.
    split; [exact Hnone |]. apply read_stimulus_eager_unbound. exact Hnone.
  - intros g self st. reflexivity.
  - intros g tv self st Hne.
    destruct (read_stimulus_eager_run (supply_timevect tv g) self tv st
                eq_refl Hne) as (times & _ & Hrun).
    eexists _, _. exact Hrun.
Qed.

(** ** read_segment *)

Lemma kwd_data_recording (kwd : H5File) (dataset : Z) (d : Dataset) :
  kwd_data kwd dataset = Ok d ->
  exists rec, kwd_recording kwd dataset = Ok rec /\ data rec = Some d /\
              kwd_attrs kwd dataset = Ok (attrs rec).
Proof.
  unfold kwd_data, kwd_attrs. intros H.
  apply result_bind_Ok_inv in H as (rec & Hrec & H).
  exists rec. rewrite Hrec. split; [reflexivity |]. split; [| reflexivity].
  destruct (data rec) as [d' |]; [| discriminate H]. injection H as ->.
  reflexivity.
Qed.

(** The steps every returning call of [read_segment] went through. *)
Lemma read_segment_inv (g : Globals) (fs : gmap string H5File) (self : KwikIO)
    (lazy cascade : bool) (dataset : Z) st st' seg :
  read_segment g fs self lazy cascade dataset st = (st', Ok seg) ->
  exists kwik kwd d a seg1,
    h5py_File fs (filename self) = Ok kwik /\
    h5py_File fs (fst (splitext (filename self)) +:+ ".raw.kwd") = Ok kwd /\
    kwd_data kwd dataset = Ok d /\
    kwd_attrs kwd dataset = Ok a /\
    (if cascade then
       read_segment_cascade g self lazy kwd dataset (shape1 d) a
         (Segment_new "session something")
     else ret (Segment_new "session something")) st = (st', Ok seg1) /\
    seg = create_many_to_one_relationship seg1.
Proof.
  unfold read_segment. intros H.
  apply bind_Ok_inv in H as (kwik & st1 & Hkwik & H).
  apply lift_Ok_inv in Hkwik as [-> Hkwik].
  apply bind_Ok_inv in H as (kwd & st2 & Hkwd & H).
  apply lift_Ok_inv in Hkwd as [-> Hkwd].
  apply bind_Ok_inv in H as (d & st3 & Hd & H).
  apply lift_Ok_inv in Hd as [-> Hd].
  apply bind_Ok_inv in H as (a & st4 & Ha & H).
  apply lift_Ok_inv in Ha as [-> Ha].
  apply bind_Ok_inv in H as (seg1 & st5 & Hbody & H).
  apply ret_inv in H as [-> ->].
  exists kwik, kwd, d, a, seg1. repeat split; assumption.
Qed.

(** The loop over the channels that reads the analog signals. *)
Lemma analogsignals_loop (g : Globals) (self : KwikIO) (lazy : bool)
    (kwd : H5File) (dataset : Z) (n : nat) (seg0 seg1 : Segment) st st' :
  for_each (range n) (fun i seg =>
      do ana <- lift (read_analogsignal g self lazy kwd (Z.of_nat i) dataset);
      ret (add_analogsignal ana seg)) seg0 st = (st', Ok seg1) ->
  map ana_channel_index (analogsignals seg1) =
    map ana_channel_index (analogsignals seg0) ++ map Z.of_nat (range n) /\
  spiketrains seg1 = spiketrains seg0 /\
  epocharrays seg1 = epocharrays seg0.
Proof.
  intros H.
  pose (I := fun (done : list nat) (seg : Segment) =>
    map ana_channel_index (analogsignals seg) =
      map ana_channel_index (analogsignals seg0) ++ map Z.of_nat done /\
    spiketrains seg = spiketrains seg0 /\
    epocharrays seg = epocharrays seg0).
  change (I ([] ++ range n) seg1).
  eapply for_each_invariant; [| | exact H].
  - intros done i seg sa sb seg' (Ha & Hs & He) Hbody.
    apply bind_Ok_inv in Hbody as (ana & sc & Hana & Hret).
    apply lift_Ok_inv in Hana as [-> Hana].
    apply ret_inv in Hret as [_ ->].
    apply read_analogsignal_channel in Hana.
    unfold I, add_analogsignal. cbn [analogsignals spiketrains epocharrays].
    rewrite !map_app. cbn [map]. rewrite Ha, Hana, <- app_assoc.
    repeat split; assumption.
  - unfold I. rewrite app_nil_r. repeat split; reflexivity.
Qed.

(** The three reads made for one channel [i]. *)
Lemma spiketrains_inner_loop (g : Globals) (self : KwikIO) (lazy : bool)
    (i : nat) (k : nat) (seg0 seg1 : Segment) st st' :
  for_each (range k) (fun _ seg =>
      do sptr <- read_spiketrain g self lazy true
                   default_segment_duration default_t_start (Z.of_nat i);
      ret (add_spiketrain sptr seg)) seg0 st = (st', Ok seg1) ->
  map sptr_channel (spiketrains seg1) =
    map sptr_channel (spiketrains seg0) ++ repeat (Some (AnnInt (Z.of_nat i))) k /\
  analogsignals seg1 = analogsignals seg0 /\
  epocharrays seg1 = epocharrays seg0.
Proof.
  intros H.
  pose (I := fun (done : list nat) (seg : Segment) =>
    map sptr_channel (spiketrains seg) =
      map sptr_channel (spiketrains seg0) ++
      repeat (Some (AnnInt (Z.of_nat i))) (length done) /\
    analogsignals seg = analogsignals seg0 /\
    epocharrays seg = epocharrays seg0).
  assert (HI : I ([] ++ range k) seg1).
  { eapply for_each_invariant; [| | exact H].
    - intros done j seg sa sb seg' (Hs & Ha & He) Hbody.
      apply bind_Ok_inv in Hbody as (sptr & sc & Hsptr & Hret).
      apply ret_inv in Hret as [_ ->].
      apply read_spiketrain_channel in Hsptr.
      unfold I, add_spiketrain. cbn [analogsignals spiketrains epocharrays].
      rewrite map_app, Hs, length_app, repeat_app, <- app_assoc.
      cbn [map length repeat]. rewrite Hsptr. repeat split; assumption.
    - unfold I. cbn [length repeat]. rewrite app_nil_r. repeat split; reflexivity. }
  unfold I in HI. cbn [app] in HI. unfold range in HI.
  rewrite length_seq in HI. exact HI.
Qed.

(** The loop over the channels that reads the spike trains. *)
Lemma spiketrains_loop (g : Globals) (self : KwikIO) (lazy : bool)
    (n k : nat) (seg0 seg1 : Segment) st st' :
  for_each (range n) (fun i seg =>
      for_each (range k) (fun _ seg =>
        do sptr <- read_spiketrain g self lazy true
                     default_segment_duration default_t_start (Z.of_nat i);
        ret (add_spiketrain sptr seg)) seg) seg0 st = (st', Ok seg1) ->
  map sptr_channel (spiketrains seg1) =
    map sptr_channel (spiketrains seg0) ++
    flat_map (fun i => repeat (Some (AnnInt (Z.of_nat i))) k) (range n) /\
  analogsignals seg1 = analogsignals seg0 /\
  epocharrays seg1 = epocharrays seg0.
Proof.
  intros H.
  pose (I := fun (done : list nat) (seg : Segment) =>
    map sptr_channel (spiketrains seg) =
      map sptr_channel (spiketrains seg0) ++
      flat_map (fun i => repeat (Some (AnnInt (Z.of_nat i))) k) done /\
    analogsignals seg = analogsignals seg0 /\
    epocharrays seg = epocharrays seg0).
  change (I ([] ++ range n) seg1).
  eapply for_each_invariant; [| | exact H].
  - intros done i seg sa sb seg' (Hs & Ha & He) Hbody.
    apply spiketrains_inner_loop in Hbody as (Hs' & Ha' & He').
    unfold I. rewrite Hs', Hs, Ha', He', flat_map_app, <- app_assoc.
    cbn [flat_map]. rewrite app_nil_r. repeat split; assumption.
  - unfold I. cbn [flat_map]. rewrite app_nil_r. repeat split; reflexivity.
Qed.

Lemma flat_map_repeat_length {A B} (f : A -> B) (k : nat) (l : list A) :
  length (flat_map (fun i => repeat (f i) k) l) = (k * length l)%nat.
Proof.
  induction l as [| x l IH]; simpl; [lia |].
  rewrite length_app, repeat_length, IH. lia.
Qed.

(** What a returning cascade has put into an empty segment. *)
Lemma read_segment_cascade_inv (g : Globals) (self : KwikIO) (lazy : bool)
    (kwd : H5File) (dataset : Z) (n : nat) (a : gmap string Q)
    (name : string) (seg1 : Segment) st st' :
  read_segment_cascade g self lazy kwd dataset n a (Segment_new name) st
    = (st', Ok seg1) ->
  map ana_channel_index (analogsignals seg1) = map Z.of_nat (range n) /\
  map sptr_channel (spiketrains seg1) =
    flat_map (fun i => repeat (Some (AnnInt (Z.of_nat i))) 3) (range n) /\
  length (epocharrays seg1) = 1%nat /\
  exists shape start_time sample_rate m,
    a !! "shape" = Some shape /\
    a !! "start_time" = Some start_time /\
    a !! "sample_rate" = Some sample_rate /\
    py_max (map (fun x => (x + start_time) / sample_rate)%Q (np_arange_to shape))
      = Ok m /\
    seg_duration seg1 = Some m.
Proof.
  unfold read_segment_cascade. intros H.
  apply bind_Ok_inv in H as (sega & st1 & Hloop1 & H).
  apply analogsignals_loop in Hloop1 as (Ha1 & Hs1 & He1).
  apply bind_Ok_inv in H as (segb & st2 & Hloop2 & H).
  apply spiketrains_loop in Hloop2 as (Hs2 & Ha2 & He2).
  apply bind_Ok_inv in H as (epo & st3 & _ & H).
  apply bind_Ok_inv in H as (shape & st4 & Hshape & H).
  apply lift_Ok_inv in Hshape as [-> Hshape].
  apply bind_Ok_inv in H as (start_time & st5 & Hstart & H).
  apply lift_Ok_inv in Hstart as [-> Hstart].
  apply bind_Ok_inv in H as (sample_rate & st6 & Hrate & H).
  apply lift_Ok_inv in Hrate as [-> Hrate].
  apply bind_Ok_inv in H as (m & st7 & Hm & H).
  apply lift_Ok_inv in Hm as [-> Hm].
  apply ret_inv in H as [_ ->].
  unfold set_duration, add_epocharray.
  cbn [analogsignals spiketrains epocharrays seg_duration].
  rewrite Ha2, Ha1, Hs2, Hs1, He2, He1, length_app. cbn [Segment_new analogsignals spiketrains epocharrays map app length].
  split; [reflexivity |]. split; [reflexivity |]. split; [reflexivity |].
  exists shape, start_time, sample_rate, m.
  unfold attr in Hshape, Hstart, Hrate.
  destruct (a !! "shape") as [v1 |]; [| discriminate Hshape].
  destruct (a !! "start_time") as [v2 |]; [| discriminate Hstart].
  destruct (a !! "sample_rate") as [v3 |]; [| discriminate Hrate].
  injection Hshape as ->. injection Hstart as ->. injection Hrate as ->.
  repeat split; try reflexivity. exact Hm.
Qed.

Lemma relationship_keeps_channels (seg : Segment) :
  map ana_channel_index (analogsignals (create_many_to_one_relationship seg)) =
    map ana_channel_index (analogsignals seg) /\
  map sptr_channel (spiketrains (create_many_to_one_relationship seg)) =
    map sptr_channel (spiketrains seg) /\
  length (epocharrays (create_many_to_one_relationship seg)) =
    length (epocharrays seg) /\
  seg_duration (create_many_to_one_relationship seg) = seg_duration seg.
Proof.
  unfold create_many_to_one_relationship.
  cbn [analogsignals spiketrains epocharrays seg_duration].
  rewrite !map_map, length_map. repeat split; reflexivity.
Qed.

(** A loop whose body returns on every item returns. *)
Lemma for_each_returns {A S} (body : A -> S -> M S) (xs : list A) :
  (forall x s st, In x xs -> exists s' st', body x s st = (st', Ok s')) ->
  forall s st, exists s' st', for_each xs body s st = (st', Ok s').
Proof.
  induction xs as [| x xs IH]; intros Hbody s st.
  - exists s, st. reflexivity.
  - destruct (Hbody x s st (or_introl eq_refl)) as (s1 & st1 & H1).
    destruct (IH (fun y s st Hy => Hbody y s st (or_intror Hy)) s1 st1)
      as (s2 & st2 & H2).
    exists s2, st2. cbn [for_each]. rewrite (bind_Ok _ _ _ _ _ H1). exact H2.
Qed.

Lemma np_arange_to_Z (N : Z) :
  np_arange_to (inject_Z N) =
    map (fun k => inject_Z (Z.of_nat k)) (seq 0 (Z.to_nat N)).
Proof. unfold np_arange_to. rewrite Qceiling_Z. reflexivity. Qed.

(** The cascade returns when every read it makes can: scipy is there, the
    attributes are there, the declared sample count is positive, and, in
    eager mode, [timevect] is bound to a non-empty vector and every channel
    index is a row of the dataset. *)
Lemma read_segment_cascade_returns (g : Globals) (self : KwikIO) (lazy : bool)
    (kwd : H5File) (dataset : Z) (rec : Recording) (d : Dataset)
    (pdf : NctPdf) (r s : Q) (N : Z) (seg0 : Segment) st :
  HAVE_SCIPY g = true -> stats g = Some pdf ->
  kwd_recording kwd dataset = Ok rec -> data rec = Some d ->
  attrs rec !! "sample_rate" = Some r ->
  attrs rec !! "start_time" = Some s ->
  attrs rec !! "shape" = Some (inject_Z N) ->
  (1 <= N)%Z ->
  (lazy = false ->
     (shape1 d <= shape0 d)%nat /\ exists tv, timevect g = Some tv /\ tv <> []) ->
  exists seg1 st',
    read_segment_cascade g self lazy kwd dataset (shape1 d) (attrs rec) seg0 st
      = (st', Ok seg1).
Proof.
  intros HS Hstats Hrec Hd Hr Hs Hn HN Heager. unfold read_segment_cascade.
  destruct (for_each_returns
              (fun i seg =>
                 do ana <- lift (read_analogsignal g self lazy kwd (Z.of_nat i) dataset);
                 ret (add_analogsignal ana seg))
              (range (shape1 d))) with (s := seg0) (st := st)
    as (sega & st1 & H1).
  { intros i seg sa Hi. apply in_seq in Hi.
    assert (Hana : exists ana,
               read_analogsignal g self lazy kwd (Z.of_nat i) dataset = Ok ana).
    { destruct lazy.
      - eexists. eapply read_analogsignal_lazy_run; eassumption.
      - destruct (Heager eq_refl) as [Hrows _].
        eexists. eapply read_analogsignal_eager_run; try eassumption. lia. }
    destruct Hana as [ana Hana]. eexists _, _.
    unfold bind, lift. rewrite Hana. reflexivity. }
  rewrite (bind_Ok _ _ _ _ _ H1).
  destruct (for_each_returns
              (fun i seg =>
                 for_each (range 3) (fun _ seg =>
                   do sptr <- read_spiketrain g self lazy true
                                default_segment_duration default_t_start (Z.of_nat i);
                   ret (add_spiketrain sptr seg)) seg)
              (range (shape1 d))) with (s := sega) (st := st1)
    as (segb & st2 & H2).
  { intros i seg sa _. apply for_each_returns. intros j seg' sb _.
    destruct (read_spiketrain_returns g self lazy true default_segment_duration
                default_t_start (Z.of_nat i) pdf sb HS Hstats)
      as (sptr & sc & Hsptr); [right; discriminate |].
    eexists _, _. rewrite (bind_Ok _ _ _ _ _ Hsptr). reflexivity. }
  rewrite (bind_Ok _ _ _ _ _ H2).
  assert (Hepo : exists epo st3, read_stimulus g self lazy st2 = (st3, Ok epo)).
  { destruct lazy.
    - eexists _, _. apply read_stimulus_lazy_run.
    - destruct (Heager eq_refl) as (_ & tv & Htv & Hne).
      destruct (read_stimulus_eager_run g self tv st2 Htv Hne) as (times & _ & Hrun).
      eexists _, _. exact Hrun. }
  destruct Hepo as (epo & st3 & Hepo). rewrite (bind_Ok _ _ _ _ _ Hepo).
  rewrite (attr_Some _ _ _ Hn), (attr_Some _ _ _ Hs), (attr_Some _ _ _ Hr).
  unfold bind at 1. unfold lift at 1.
  unfold bind at 1. unfold lift at 1.
  unfold bind at 1. unfold lift at 1.
  destruct (py_max_nonempty
              (map (fun x => (x + s) / r)%Q (np_arange_to (inject_Z N))))
    as [m Hm].
  { rewrite np_arange_to_Z. intros E. apply (f_equal length) in E.
    rewrite !length_map, length_seq in E. simpl in E. lia. }
  rewrite Hm. eexists _, _. reflexivity.
Qed.

(** The segment's duration is the largest timestamp, the one of the last
    declared sample. *)
Lemma duration_is_last_timestamp (N : Z) (s r m : Q) :
  (1 <= N)%Z -> (0 < r)%Q ->
  py_max (map (fun x => (x + s) / r)%Q (np_arange_to (inject_Z N))) = Ok m ->
  (m == (inject_Z (N - 1) + s) / r)%Q /\
  forall i, (0 <= i < N)%Z -> ((inject_Z i + s) / r <= m)%Q.
Proof.
  intros HN Hr Hm. rewrite np_arange_to_Z in Hm.
  apply py_max_spec in Hm as [Hin Hub].
  assert (Hmono : forall a b : Z, (a <= b)%Z ->
            ((inject_Z a + s) / r <= (inject_Z b + s) / r)%Q).
  { intros a b Hab. apply Qmult_le_compat_r.
    - rewrite Zle_Qle in Hab. lra.
    - apply Qlt_le_weak, Qinv_lt_0_compat. exact Hr. }
  assert (Hall : forall i, (0 <= i < N)%Z -> ((inject_Z i + s) / r <= m)%Q).
  { intros i Hi. apply Hub. rewrite map_map. apply in_map_iff.
    exists (Z.to_nat i). split.
    - rewrite Z2Nat.id by lia. reflexivity.
    - apply in_seq. lia. }
  split; [| exact Hall]. apply Qle_antisym.
  - rewrite map_map in Hin. apply in_map_iff in Hin as (k & <- & Hk).
    apply in_seq in Hk. apply Hmono. lia.
  - apply Hall. lia.
Qed.

Lemma h5py_File_Some (fs : gmap string H5File) (name : string) (f : H5File) :
  fs !! name = Some f -> h5py_File fs name = Ok f.
Proof. unfold h5py_File. intros ->. reflexivity. Qed.

(** Once the two files and the data set are found, what is left of
    [read_segment] is the cascade and the wiring of the children. *)
Lemma read_segment_found (g : Globals) (fs : gmap string H5File)
    (self : KwikIO) (lazy cascade : bool) (dataset : Z) (kwik kwd : H5File)
    (d : Dataset) (a : gmap string Q) st :
  fs !! filename self = Some kwik ->
  fs !! (fst (splitext (filename self)) +:+ ".raw.kwd") = Some kwd ->
  kwd_data kwd dataset = Ok d ->
  kwd_attrs kwd dataset = Ok a ->
  read_segment g fs self lazy cascade dataset st =
    (do seg <-
       (if cascade then
          read_segment_cascade g self lazy kwd dataset (shape1 d) a
            (Segment_new "session something")
        else ret (Segment_new "session something"));
     ret (create_many_to_one_relationship seg)) st.
Proof.
  intros Hkwik Hkwd Hd Ha. unfold read_segment.
  rewrite (h5py_File_Some _ _ _ Hkwik), (h5py_File_Some _ _ _ Hkwd).
  unfold bind at 1. unfold lift at 1.
  unfold bind at 1. unfold lift at 1.
  rewrite Hd. unfold bind at 1. unfold lift at 1.
  rewrite Ha. unfold bind at 1. unfold lift at 1.
  reflexivity.
Qed.

Lemma kwd_data_Ok (kwd : H5File) (dataset : Z) (rec : Recording) (d : Dataset) :
  kwd_recording kwd dataset = Ok rec -> data rec = Some d ->
  kwd_data kwd dataset = Ok d /\ kwd_attrs kwd dataset = Ok (attrs rec).
Proof.
  intros Hrec Hd. unfold kwd_data, kwd_attrs. rewrite Hrec. cbn [result_bind].
  rewrite Hd. split; reflexivity.
Qed.

(** A cascaded read returns when every read it makes can. *)
Lemma read_segment_cascaded_returns (g : Globals) (fs : gmap string H5File)
    (self : KwikIO) (lazy : bool) (dataset : Z) (kwik kwd : H5File)
    (rec : Recording) (d : Dataset) (pdf : NctPdf) (r s : Q) (N : Z) st :
  HAVE_SCIPY g = true -> stats g = Some pdf ->
  fs !! filename self = Some kwik ->
  fs !! (fst (splitext (filename self)) +:+ ".raw.kwd") = Some kwd ->
  kwd_recording kwd dataset = Ok rec -> data rec = Some d ->
  attrs rec !! "sample_rate" = Some r ->
  attrs rec !! "start_time" = Some s ->
  attrs rec !! "shape" = Some (inject_Z N) ->
  (1 <= N)%Z ->
  (lazy = false ->
     (shape1 d <= shape0 d)%nat /\ exists tv, timevect g = Some tv /\ tv <> []) ->
  exists seg st',
    read_segment g fs self lazy true dataset st = (st', Ok seg).
Proof.
  intros HS Hstats Hkwik Hkwd Hrec Hd Hr Hs Hn HN Heager.
  destruct (read_segment_cascade_returns g self lazy kwd dataset rec d pdf
              r s N (Segment_new "session something") st
              HS Hstats Hrec Hd Hr Hs Hn HN Heager)
    as (seg1 & st' & Hbody).
  exists (create_many_to_one_relationship seg1), st'.
  destruct (kwd_data_Ok kwd dataset rec d Hrec Hd) as [Hdata Hattrs].
  rewrite (read_segment_found g fs self lazy true dataset kwik kwd d
             (attrs rec) st Hkwik Hkwd Hdata Hattrs).
  rewrite (bind_Ok _ _ _ _ _ Hbody). reflexivity.
Qed.

(** A cascaded read that returns has put into the segment one analog
    signal per channel index below the channel count (dimension 1 of the
    data), in the order of the indices, three spike trains per channel,
    each annotated with the channel it was read for, and one epoch array.
    The eager read does return when scipy is there, [timevect] is bound to
    a non-empty vector, the attributes are there with a positive sample
    count, and every channel index is a row of the data. *)
Theorem read_segment_cascade_children :
  (forall g fs self lazy dataset st st' seg kwd d,
      h5py_File fs (fst (splitext (filename self)) +:+ ".raw.kwd") = Ok kwd ->
      kwd_data kwd dataset = Ok d ->
      read_segment g fs self lazy true dataset st = (st', Ok seg) ->
      length (analogsignals seg) = shape1 d /\
      map ana_channel_index (analogsignals seg) = map Z.of_nat (range (shape1 d)) /\
      length (spiketrains seg) = (3 * shape1 d)%nat /\
      map sptr_channel (spiketrains seg) =
        flat_map (fun i => repeat (Some (AnnInt (Z.of_nat i))) 3)
                 (range (shape1 d)) /\
      length (epocharrays seg) = 1%nat) /\
  (forall g fs self dataset st kwik kwd rec d pdf tv r s N,
      HAVE_SCIPY g = true -> stats g = Some pdf ->
      timevect g = Some tv -> tv <> [] ->
      fs !! filename self = Some kwik ->
      fs !! (fst (splitext (filename self)) +:+ ".raw.kwd") = Some kwd ->
      kwd_recording kwd dataset = Ok rec -> data rec = Some d ->
      attrs rec !! "sample_rate" = Some r ->
      attrs rec !! "start_time" = Some s ->
      attrs rec !! "shape" = Some (inject_Z N) ->
      (1 <= N)%Z -> (shape1 d <= shape0 d)%nat ->
      exists seg st',
        read_segment g fs self false true dataset st = (st', Ok seg)).
Proof.
  split.
  - intros g fs self lazy dataset st st' seg kwd d Hkwd Hd Hrun.
    apply read_segment_inv in Hrun
      as (kwik & kwd' & d' & a & seg1 & _ & Hkwd' & Hd' & _ & Hbody & ->).
    rewrite Hkwd in Hkwd'. injection Hkwd' as <-.
    rewrite Hd in Hd'. injection Hd' as <-.
    apply read_segment_cascade_inv in Hbody as (Ha & Hs & He & _).
    destruct (relationship_keeps_channels seg1) as (Ka & Ks & Ke & _).
    assert (La : length (analogsignals (create_many_to_one_relationship seg1))
                 = shape1 d).
    { apply (f_equal length) in Ka. rewrite Ha, !length_map in Ka.
      unfold range in Ka. rewrite length_seq in Ka. exact Ka. }
    assert (Ls : length (spiketrains (create_many_to_one_relationship seg1))
                 = (3 * shape1 d)%nat).
    { apply (f_equal length) in Ks.
      rewrite Hs, length_map, flat_map_repeat_length in Ks.
      unfold range in Ks. rewrite length_seq in Ks. exact Ks. }
    rewrite Ka, Ks, Ke. repeat split; assumption.
  - intros g fs self dataset st kwik kwd rec d pdf tv r s N
      HS Hstats Htv Hne Hkwik Hkwd Hrec Hd Hr Hs Hn HN Hrows.
    apply (read_segment_cascaded_returns g fs self false dataset kwik kwd rec
             d pdf r s N st HS Hstats Hkwik Hkwd Hrec Hd Hr Hs Hn HN).
    intros _. split; [exact Hrows |]. exists tv. split; assumption.
Qed.

(** C5. Without cascade the call looks the two files and the data set up
    and returns the empty segment: no analog signal, no spike train, no
    epoch array, no duration.  The result is the same whatever [lazy], the
    globals, the attributes and the cells are, and the random generator is
    left as it was: nothing is read per channel. *)
Theorem read_segment_without_cascade (g : Globals) (fs : gmap string H5File)
    (self : KwikIO) (lazy : bool) (dataset : Z) (kwik kwd : H5File)
    (d : Dataset) st :
  fs !! filename self = Some kwik ->
  fs !! (fst (splitext (filename self)) +:+ ".raw.kwd") = Some kwd ->
  kwd_data kwd dataset = Ok d ->
  exists seg,
    read_segment g fs self lazy false dataset st = (st, Ok seg) /\
    seg = Segment_new "session something" /\
    analogsignals seg = [] /\
    spiketrains seg = [] /\
    epocharrays seg = [] /\
    seg_duration seg = None.
Proof.
  intros Hkwik Hkwd Hd. exists (Segment_new "session something").
  split; [| repeat split; reflexivity].
  destruct (kwd_data_recording kwd dataset d Hd) as (rec & Hrec & Hdata & Ha).
  rewrite (read_segment_found g fs self lazy false dataset kwik kwd d
             (attrs rec) st Hkwik Hkwd Hd Ha).
  reflexivity.
Qed.

(** Without cascade nothing else can be returned. *)
Lemma read_segment_without_cascade_inv (g : Globals) (fs : gmap string H5File)
    (self : KwikIO) (lazy : bool) (dataset : Z) (seg : Segment) st st' :
  read_segment g fs self lazy false dataset st = (st', Ok seg) ->
  st' = st /\ seg = Segment_new "session something".
Proof.
  intros H. apply read_segment_inv in H
    as (kwik & kwd & d & a & seg1 & _ & _ & _ & _ & Hbody & ->).
  apply ret_inv in Hbody as [-> ->]. split; reflexivity.
Qed.

(** C6. When the attributes declare [N >= 1] samples, the start offset
    [s] and the rate [r > 0], the duration of a cascaded read is the
    maximum of [(i + s) / r] over [0 <= i < N], which is
    [(N - 1 + s) / r]. *)
Theorem read_segment_duration (g : Globals) (fs : gmap string H5File)
    (self : KwikIO) (lazy : bool) (dataset : Z) (kwd : H5File)
    (a : gmap string Q) (N : Z) (s r : Q) (seg : Segment) st st' :
  h5py_File fs (fst (splitext (filename self)) +:+ ".raw.kwd") = Ok kwd ->
  kwd_attrs kwd dataset = Ok a ->
  a !! "shape" = Some (inject_Z N) ->
  a !! "start_time" = Some s ->
  a !! "sample_rate" = Some r ->
  (1 <= N)%Z -> (0 < r)%Q ->
  read_segment g fs self lazy true dataset st = (st', Ok seg) ->
  exists duration,
    seg_duration seg = Some duration /\
    (duration == (inject_Z (N - 1) + s) / r)%Q /\
    forall i, (0 <= i < N)%Z -> ((inject_Z i + s) / r <= duration)%Q.
Proof.
  intros Hkwd Ha Hn Hs Hr HN Hpos Hrun.
  apply read_segment_inv in Hrun
    as (kwik & kwd' & d & a' & seg1 & _ & Hkwd' & _ & Ha' & Hbody & ->).
  rewrite Hkwd in Hkwd'. injection Hkwd' as <-.
  rewrite Ha in Ha'. injection Ha' as <-.
  apply read_segment_cascade_inv in Hbody
    as (_ & _ & _ & shape & start_time & sample_rate & m
        & Hn' & Hs' & Hr' & Hm & Hdur).
  rewrite Hn in Hn'. injection Hn' as <-.
  rewrite Hs in Hs'. injection Hs' as <-.
  rewrite Hr in Hr'. injection Hr' as <-.
  exists m. split.
  - destruct (relationship_keeps_channels seg1) as (_ & _ & _ & Kd).
    rewrite Kd. exact Hdur.
  - apply duration_is_last_timestamp; assumption.
Qed.

(** ** The channel axis *)

(** With scipy imported, a lazy train is empty, holds no waveforms and
    declares the number of timestamps of the train an eager call with the
    same parameters returns. *)
Lemma read_spiketrain_lazy_declares_eager_count (g : Globals) (self : KwikIO)
    (cascade : bool) (segment_duration t_start : Q) (channel_index : Z)
    (pdf : NctPdf) st st' eager_sptr :
  HAVE_SCIPY g = true -> stats g = Some pdf ->
  read_spiketrain g self false cascade segment_duration t_start channel_index st
    = (st', Ok eager_sptr) ->
  exists lazy_sptr,
    read_spiketrain g self true cascade segment_duration t_start channel_index st
      = (st, Ok lazy_sptr) /\
    sptr_times lazy_sptr = [] /\
    sptr_waveforms lazy_sptr = None /\
    sptr_lazy_shape lazy_sptr = Some [length (sptr_times eager_sptr)].
Proof.
  intros HS Hstats Heager.
  destruct (spike_template_returns pdf) as (w & Hw & _).
  destruct (read_spiketrain_eager_inv g self cascade segment_duration t_start
              channel_index pdf w st st' eager_sptr HS Hstats Hw Heager)
    as (times & noise & st1 & Htimes & _ & _ & ->).
  apply rand_n_draws_in_unit_interval in Htimes as [Hlen _].
  eexists.
  split; [apply read_spiketrain_lazy_run with (pdf := pdf); assumption |].
  cbn [sptr_annotate sptr_set_lazy_shape sptr_set_waveforms
    SpikeTrain_init sptr_times sptr_waveforms sptr_lazy_shape].
  rewrite length_map, Hlen. repeat split; reflexivity.
Qed.

(** A lazy signal is empty and declares the attribute [shape]; the eager
    signal for the same parameters has as many samples as the data set has
    columns, which is the number [read_segment] takes for the channel
    count. *)
Lemma read_analogsignal_lazy_vs_eager (g : Globals) (self : KwikIO)
    (kwd : H5File) (channel_index dataset : Z) (rec : Recording) (d : Dataset)
    (lazy_sig eager_sig : AnalogSignal) :
  kwd_recording kwd dataset = Ok rec -> data rec = Some d ->
  read_analogsignal g self true kwd channel_index dataset = Ok lazy_sig ->
  read_analogsignal g self false kwd channel_index dataset = Ok eager_sig ->
  ana_signal lazy_sig = [] /\
  ana_lazy_shape lazy_sig = attrs rec !! "shape" /\
  length (ana_signal eager_sig) = shape1 d.
Proof.
  intros Hrec Hd Hlazy Heager.
  destruct (kwd_data_Ok kwd dataset rec d Hrec Hd) as [Hdata Hattrs].
  apply read_analogsignal_lazy_inv in Hlazy as (Hempty & _ & a & n & Ha & Hn & Hshape).
  rewrite Hattrs in Ha. injection Ha as <-.
  apply (read_analogsignal_eager_inv g self kwd channel_index dataset d) in Heager
    as (Hlen & _); [| exact Hdata].
  rewrite Hshape, Hn. repeat split; [exact Hempty | exact Hlen].
Qed.

(** C2, at a data set of three samples of two channels.  The eager read of
    channel 0 returns the two values of row 0, one per channel, and not
    the three samples of the channel. *)
Example read_analogsignal_eager_reads_a_row :
  shape0 example_dataset = 3%nat /\
  shape1 example_dataset = 2%nat /\
  map (fun i => cell example_dataset i 0) (range 3) = [0; 10; 20]%Z /\
  exists sig,
    read_analogsignal example_globals example_io false example_kwd 0 0 = Ok sig /\
    ana_signal sig = [0; 1]%Z /\
    length (ana_signal sig) = shape1 example_dataset /\
    length (ana_signal sig) <> shape0 example_dataset.
Proof.
  split; [reflexivity |]. split; [reflexivity |]. split; [reflexivity |].
  eexists. split.
  - apply read_analogsignal_eager_run
      with (rec := mkRecording (Some example_dataset) example_attrs)
           (d := example_dataset) (r := 30000%Q) (s := 0%Q);
      try reflexivity.
    simpl. lia.
  - cbn. split; [reflexivity |]. split; [reflexivity | discriminate].
Qed.

(** C3, at the same data set, whose attribute [shape] declares the three
    samples.  The lazy signal is empty and declares 3; the eager signal
    has 2 samples. *)
Example read_analogsignal_lazy_shape_is_not_eager_length :
  exists lazy_sig eager_sig,
    read_analogsignal example_globals example_io true example_kwd 0 0
      = Ok lazy_sig /\
    read_analogsignal example_globals example_io false example_kwd 0 0
      = Ok eager_sig /\
    ana_signal lazy_sig = [] /\
    ana_lazy_shape lazy_sig = Some 3%Q /\
    length (ana_signal eager_sig) = 2%nat.
Proof.
  eexists _, _. split; [| split].
  - apply read_analogsignal_lazy_run
      with (rec := mkRecording (Some example_dataset) example_attrs)
           (r := 30000%Q) (s := 0%Q) (n := 3%Q); reflexivity.
  - apply read_analogsignal_eager_run
      with (rec := mkRecording (Some example_dataset) example_attrs)
           (d := example_dataset) (r := 30000%Q) (s := 0%Q);
      try reflexivity.
    simpl. lia.
  - cbn. repeat split; reflexivity.
Qed.

(** The signals loop stops at the first channel whose read raises. *)
Lemma analogsignals_loop_stops (g : Globals) (self : KwikIO) (lazy : bool)
    (kwd : H5File) (dataset : Z) (xs : list nat) (y : nat) (zs : list nat)
    (e : exn) :
  (forall i, In i xs ->
     exists sig, read_analogsignal g self lazy kwd (Z.of_nat i) dataset = Ok sig) ->
  read_analogsignal g self lazy kwd (Z.of_nat y) dataset = Raise e ->
  forall seg st,
    for_each (xs ++ y :: zs) (fun i seg =>
        do ana <- lift (read_analogsignal g self lazy kwd (Z.of_nat i) dataset);
        ret (add_analogsignal ana seg)) seg st
    = (st, Raise e).
Proof.
  intros Hxs Hy. induction xs as [| x xs IH]; intros seg st.
  - cbn [app for_each]. apply bind_Raise. apply bind_Raise.
    unfold lift. rewrite Hy. reflexivity.
  - destruct (Hxs x (or_introl eq_refl)) as [sig Hsig].
    cbn [app for_each]. unfold bind at 1. unfold bind at 1.
    unfold lift. rewrite Hsig. unfold ret at 1.
    apply IH. intros i Hi. apply Hxs. right. exact Hi.
Qed.

Lemma range_split (n m : nat) :
  (n < m)%nat -> range m = range n ++ n :: seq (S n) (m - S n).
Proof.
  intros H. unfold range. replace m with (n + S (m - S n))%nat at 1 by lia.
  rewrite seq_app. reflexivity.
Qed.

(** C1 fails where the data has fewer rows than columns.  [read_segment]
    takes the channel count from dimension 1 of the data, and
    [read_analogsignal] indexes dimension 0 with the channel index: over
    data with more columns than rows an eager cascaded read, whatever the
    globals hold, raises the index error of the first channel index that is
    no row, draws nothing and returns no segment. *)
Theorem read_segment_eager_cascade_runs_out_of_rows (g : Globals)
    (fs : gmap string H5File) (self : KwikIO) (dataset : Z)
    (kwik kwd : H5File) (rec : Recording) (d : Dataset) (r s : Q) st :
  fs !! filename self = Some kwik ->
  fs !! (fst (splitext (filename self)) +:+ ".raw.kwd") = Some kwd ->
  kwd_recording kwd dataset = Ok rec -> data rec = Some d ->
  attrs rec !! "sample_rate" = Some r ->
  attrs rec !! "start_time" = Some s ->
  (shape0 d < shape1 d)%nat ->
  read_segment g fs self false true dataset st
    = (st, Raise (IndexError (Z.of_nat (shape0 d)))).
Proof.
  intros Hkwik Hkwd Hrec Hd Hr Hs Hwide.
  destruct (kwd_data_Ok kwd dataset rec d Hrec Hd) as [Hdata Hattrs].
  rewrite (read_segment_found g fs self false true dataset kwik kwd d
             (attrs rec) st Hkwik Hkwd Hdata Hattrs).
  apply bind_Raise. unfold read_segment_cascade. apply bind_Raise.
  rewrite (range_split (shape0 d) (shape1 d) Hwide).
  apply analogsignals_loop_stops.
  - intros i Hi. apply in_seq in Hi. eexists.
    eapply read_analogsignal_eager_run; try eassumption. lia.
  - unfold read_analogsignal. rewrite Hattrs, Hdata. cbn [result_bind].
    unfold dataset_row. cbv zeta.
    destruct (decide (0 <= Z.of_nat (shape0 d) < Z.of_nat (shape0 d))%Z);
      [lia |].
    destruct (decide (- Z.of_nat (shape0 d) <= Z.of_nat (shape0 d) < 0)%Z);
      [lia |].
    reflexivity.
Qed.

(** With the globals as the module leaves them, the eager cascade reads
    the signals and the spike trains and then stops at [timevect]. *)
Example read_segment_eager_stops_at_timevect :
  snd (read_segment example_globals example_fs example_io false true 0
         example_random) = Raise (NameError "timevect").
Proof. vm_compute. reflexivity. Qed.

(** ** Instances *)


(** A negative segment duration puts the stop time before the start time:
    at a duration of -15 the constructor refuses the times, after the 40
    draws, and no train comes back. *)
Example read_spiketrain_negative_duration_raises :
  read_spiketrain example_globals example_io false true (-15) (-1) 0
    example_random
  = (mkRandomState (words example_random) (normals example_random)
       (upos example_random + 40) (npos example_random),
     Raise (ValueError "The first spike is before t_start")).
Proof.
  destruct (spike_template_returns example_pdf) as (w & Hw & _).
  destruct (read_spiketrain_eager_cases example_globals example_io true (-15)
              (-1) 0 example_pdf w example_random eq_refl eq_refl Hw)
    as (times & st1 & Htimes & Hcases).
  rewrite np_random_rand_n_run in Htimes.
  apply pair_equal_spec in Htimes as [<- Htimes]. apply Ok_inj in Htimes.
  subst times.
  replace (SpikeTrain_new _ _ _ _ _)
    with (@Raise SpikeTrain (ValueError "The first spike is before t_start"))
    in Hcases by (vm_compute; reflexivity).
  exact Hcases.
Qed.


Lemma example_pdf_positive (x : Z) :
  In x (np_arange 11 60 2) -> (0 < example_pdf (inject_Z x) 5 20)%Q.
Proof.
  rewrite np_arange_11_60_2. intros H.
  repeat (destruct H as [<- | H]; [reflexivity |]). destruct H.
Defined.

Lemma spike_template_normalised_witness :
  exists w m v,
    spike_template example_pdf = Ok w /\
    py_max (np_abs w) = Ok m /\ (m == 1)%Q /\
    w !! np_argmax (np_abs w) = Some v /\ (v == -1)%Q /\ (v < 0)%Q.
Proof.
  apply (spike_template_normalised example_pdf). exact example_pdf_positive.
Defined.

Lemma missing_scipy_witness :
  exists g,
    globals_at_call (Raise (ImportError "scipy")) None = Ok g /\
    read_spiketrain g example_io false true 15 (-1) 0 example_random
      = (example_random, Raise (ImportError "scipy")).
Proof.
  destruct (missing_scipy_fails_spiketrain_only "scipy" None)
    as (g & Hg & Hraise & _).
  exists g. split; [exact Hg | apply Hraise].
Defined.

Lemma read_stimulus_epochs_witness :
  exists epo st',
    read_stimulus example_globals_timevect example_io false example_random
      = (st', Ok epo) /\
    length (epo_labels epo) = 1000%nat /\
    Forall (fun d => (d == 500)%Q) (magnitudes (epo_durations epo)).
Proof.
  destruct (proj2 read_stimulus_epochs example_globals_timevect example_io
              example_random [0; 1 # 2; 1]%Q eq_refl ltac:(discriminate))
    as (epo & st' & Hrun & _ & _ & Hlabels & _ & Hdur & _).
  exists epo, st'. split; [exact Hrun |]. split; [exact Hlabels | exact Hdur].
Defined.

Lemma read_stimulus_timevect_unbound_witness :
  read_stimulus example_globals example_io false example_random
  = (example_random, Raise (NameError "timevect")).
Proof.
  exact (proj2 (proj1 read_stimulus_timevect_unbound (Ok example_pdf)
                  example_globals example_io example_random eq_refl)).
Defined.

Lemma read_segment_without_cascade_witness :
  exists seg,
    read_segment example_globals example_fs example_io false false 0 example_random
      = (example_random, Ok seg) /\
    analogsignals seg = [] /\ spiketrains seg = [] /\ epocharrays seg = [] /\
    seg_duration seg = None.
Proof.
  destruct (read_segment_without_cascade example_globals example_fs example_io
              false 0%Z (mkH5File None) example_kwd example_dataset example_random
              eq_refl eq_refl eq_refl)
    as (seg & Hrun & _ & Hrest).
  exists seg. split; [exact Hrun | exact Hrest].
Defined.

Lemma read_segment_eager_cascade_runs_out_of_rows_witness :
  shape0 example_short_dataset = 1%nat /\
  shape1 example_short_dataset = 2%nat /\
  read_segment example_globals_timevect example_short_fs example_io false true 0
    example_random = (example_random, Raise (IndexError 1)).
Proof.
  split; [reflexivity |]. split; [reflexivity |].
  apply (read_segment_eager_cascade_runs_out_of_rows example_globals_timevect
           example_short_fs example_io 0 (mkH5File None) example_short_kwd
           (mkRecording (Some example_short_dataset) example_short_attrs)
           example_short_dataset 30000%Q 0%Q example_random
           eq_refl eq_refl eq_refl eq_refl eq_refl eq_refl).
  simpl. lia.
Defined.

Lemma read_segment_cascade_children_witness :
  exists seg st',
    read_segment example_globals_timevect example_fs example_io false true 0
      example_random = (st', Ok seg) /\
    length (analogsignals seg) = 2%nat /\
    length (spiketrains seg) = 6%nat /\
    length (epocharrays seg) = 1%nat.
Proof.
  destruct (proj2 read_segment_cascade_children example_globals_timevect
              example_fs example_io 0%Z example_random (mkH5File None) example_kwd
              (mkRecording (Some example_dataset) example_attrs) example_dataset
              example_pdf [0; 1 # 2; 1]%Q 30000%Q 0%Q 3%Z
              eq_refl eq_refl eq_refl ltac:(discriminate) eq_refl eq_refl
              eq_refl eq_refl eq_refl eq_refl eq_refl ltac:(lia)
              ltac:(simpl; lia))
    as (seg & st' & Hrun).
  destruct (proj1 read_segment_cascade_children example_globals_timevect
              example_fs example_io false 0%Z example_random st' seg example_kwd
              example_dataset eq_refl eq_refl Hrun)
    as (Ha & _ & Hs & _ & He).
  exists seg, st'. split; [exact Hrun |]. split; [exact Ha |].
  split; [exact Hs | exact He].
Defined.

Lemma read_segment_duration_witness :
  exists seg st' duration,
    read_segment example_globals example_fs example_io true true 0 example_random
      = (st', Ok seg) /\
    seg_duration seg = Some duration /\
    (duration == 2 / 30000)%Q.
Proof.
  destruct (read_segment_cascaded_returns example_globals example_fs example_io
              true 0%Z (mkH5File None) example_kwd
              (mkRecording (Some example_dataset) example_attrs) example_dataset
              example_pdf 30000%Q 0%Q 3%Z example_random
              eq_refl eq_refl eq_refl eq_refl eq_refl eq_refl eq_refl eq_refl
              eq_refl ltac:(lia) ltac:(discriminate))
    as (seg & st' & Hrun).
  destruct (read_segment_duration example_globals example_fs example_io true 0%Z
              example_kwd example_attrs 3%Z 0%Q 30000%Q seg example_random st'
              eq_refl eq_refl eq_refl eq_refl eq_refl ltac:(lia) eq_refl Hrun)
    as (duration & Hdur & Heq & _).
  exists seg, st', duration. split; [exact Hrun |]. split; [exact Hdur |].
  rewrite Heq. reflexivity.
Defined.

(** * Further properties of the readers *)

(** ** read_analogsignal: bounds and missing attributes *)

(** An eager read with a channel index that is no row of the data set,
    counted from either end, raises an index error; the attributes are
    not looked at before. *)
Theorem read_analogsignal_eager_out_of_range (g : Globals) (self : KwikIO)
    (kwd : H5File) (channel_index dataset : Z) (d : Dataset) :
  kwd_data kwd dataset = Ok d ->
  ~ (- Z.of_nat (shape0 d) <= channel_index < Z.of_nat (shape0 d))%Z ->
  read_analogsignal g self false kwd channel_index dataset
    = Raise (IndexError channel_index).
Proof.
  intros Hd Hout.
  destruct (kwd_data_recording kwd dataset d Hd) as (rec & _ & _ & Ha).
  unfold read_analogsignal. rewrite Ha, Hd. cbn [result_bind].
  unfold dataset_row. cbv zeta.
  rewrite decide_False by lia. rewrite decide_False by lia. reflexivity.
Qed.

Lemma read_analogsignal_eager_out_of_range_witness :
  read_analogsignal example_globals example_io false example_kwd 3 0
    = Raise (IndexError 3).
Proof.
  apply (read_analogsignal_eager_out_of_range example_globals example_io
           example_kwd 3 0 example_dataset eq_refl).
  simpl. lia.
Defined.

(** A lazy read needs the three attributes and nothing else of the
    recording: it raises [KeyError] for the first of [sample_rate],
    [start_time], [shape] that is missing, and otherwise returns the empty
    signal that carries them, whether the recording has data or not. *)
Theorem read_analogsignal_lazy_attributes (g : Globals) (self : KwikIO)
    (kwd : H5File) (channel_index dataset : Z) (rec : Recording) :
  kwd_recording kwd dataset = Ok rec ->
  match attrs rec !! "sample_rate", attrs rec !! "start_time",
        attrs rec !! "shape" with
  | None, _, _ =>
      read_analogsignal g self true kwd channel_index dataset
        = Raise (KeyError "sample_rate")
  | Some _, None, _ =>
      read_analogsignal g self true kwd channel_index dataset
        = Raise (KeyError "start_time")
  | Some _, Some _, None =>
      read_analogsignal g self true kwd channel_index dataset
        = Raise (KeyError "shape")
  | Some r, Some s, Some n =>
      exists sig,
        read_analogsignal g self true kwd channel_index dataset = Ok sig /\
        ana_signal sig = [] /\
        ana_sampling_rate sig = mkQuantity r pq_Hz /\
        ana_t_start sig = mkQuantity s pq_s /\
        ana_lazy_shape sig = Some n /\
        ana_channel_index sig = channel_index
  end.
Proof.
  intros Hrec. unfold read_analogsignal, kwd_attrs. rewrite Hrec.
  cbn [result_bind]. unfold attr.
  destruct (attrs rec !! "sample_rate") as [r |]; [| reflexivity].
  destruct (attrs rec !! "start_time") as [s |]; [| reflexivity].
  destruct (attrs rec !! "shape") as [n |]; [| reflexivity].
  cbn [result_bind]. eexists. split; [reflexivity |].
  repeat split; reflexivity.
Qed.

Lemma read_analogsignal_lazy_attributes_witness :
  read_analogsignal example_globals example_io true example_kwd_no_start_time 0 0
    = Raise (KeyError "start_time").
Proof.
  exact (read_analogsignal_lazy_attributes example_globals example_io
           example_kwd_no_start_time 0 0
           (mkRecording None (<["shape" := 3%Q]> {["sample_rate" := 30000%Q]}))
           eq_refl).
Defined.

(** ** read_stimulus: where the onset times come from *)

Lemma np_item_In (a : list Q) (i : Z) (x : Q) :
  np_item a i = Ok x -> In x a.
Proof.
  unfold np_item. cbv zeta. intros H.
  destruct (decide (0 <= (if decide (i < 0)%Z then (i + Z.of_nat (length a))%Z else i)
                    < Z.of_nat (length a))%Z); [| discriminate H].
  destruct (a !! _) as [y |] eqn:E; [| discriminate H].
  injection H as <-. eapply lookup_Some_In. exact E.
Qed.

Lemma np_take_In (a : list Q) (idx : list Z) : forall xs,
  np_take a idx = Ok xs -> Forall (fun x => In x a) xs.
Proof.
  induction idx as [| i idx IH]; intros xs H; simpl in H.
  - injection H as <-. constructor.
  - apply result_bind_Ok_inv in H as (x & Hx & H).
    apply result_bind_Ok_inv in H as (xs' & Hxs & H). injection H as <-.
    constructor; [eapply np_item_In; exact Hx | apply IH; exact Hxs].
Qed.

(** Every onset time an eager call returns is an entry of [timevect]:
    the times are drawn from the vector, with replacement, and carry the
    unit second. *)
Theorem read_stimulus_times_from_timevect (g : Globals) (self : KwikIO)
    (tv : list Q) (epo : EpochArray) st st' :
  timevect g = Some tv ->
  read_stimulus g self false st = (st', Ok epo) ->
  Forall (fun t => In t tv) (magnitudes (epo_times epo)) /\
  units_of (epo_times epo) = pq_s.
Proof.
  intros Htv H. unfold read_stimulus in H. rewrite Htv in H.
  apply bind_Ok_inv in H as (tv' & st1 & Hg & H).
  apply ret_inv in Hg as [-> ->].
  apply bind_Ok_inv in H as (r & st2 & _ & H).
  apply bind_Ok_inv in H as (times & st3 & Htimes & H).
  apply lift_Ok_inv in Htimes as [-> Htimes].
  apply bind_Ok_inv in H as (l & st4 & _ & H).
  apply ret_inv in H as [_ ->]. cbn [epo_times magnitudes units_of].
  split; [eapply np_take_In; exact Htimes | reflexivity].
Qed.

Lemma read_stimulus_times_from_timevect_witness :
  exists epo st',
    read_stimulus example_globals_timevect example_io false example_random
      = (st', Ok epo) /\
    Forall (fun t => In t [0; 1 # 2; 1]%Q) (magnitudes (epo_times epo)).
Proof.
  destruct (read_stimulus_eager_run example_globals_timevect example_io
              [0; 1 # 2; 1]%Q example_random eq_refl ltac:(discriminate))
    as (times & _ & Hrun).
  eexists _, _. split; [exact Hrun |].
  exact (proj1 (read_stimulus_times_from_timevect example_globals_timevect
                  example_io [0; 1 # 2; 1]%Q _ example_random _ eq_refl Hrun)).
Defined.

Lemma astype_i_times_zero (x : Q) : astype_i (x * inject_Z 0) = 0%Z.
Proof.
  assert (E : (x * inject_Z 0 == 0)%Q) by (unfold inject_Z; ring).
  unfold astype_i. destruct (Qlt_le_dec (x * inject_Z 0) 0) as [Hneg | _].
  - rewrite E in Hneg. discriminate Hneg.
  - rewrite (Qfloor_comp _ _ E). reflexivity.
Qed.

Lemma read_stimulus_empty_timevect_run (g : Globals) (self : KwikIO) st :
  timevect g = Some [] ->
  read_stimulus g self false st =
    (mkRandomState (words st) (normals st) (upos st + 1000) (npos st),
     Raise (IndexError 0)).
Proof.
  intros Htv. unfold read_stimulus. rewrite Htv. unfold global.
  unfold bind at 1. unfold ret at 1.
  unfold bind at 1. rewrite np_random_rand_n_run.
  unfold bind at 1. unfold lift.
  change (seq 0 1000) with (0%nat :: seq 1 999). cbn [map length np_take].
  rewrite astype_i_times_zero. reflexivity.
Qed.

(** When [timevect] is bound to an empty vector, the eager call draws the
    1000 positions and then fails on the first of them: an index error,
    and no epoch array. *)
Theorem read_stimulus_empty_timevect (g : Globals) (self : KwikIO) st :
  timevect g = Some [] ->
  read_stimulus g self false st =
    (mkRandomState (words st) (normals st) (upos st + 1000) (npos st),
     Raise (IndexError 0)).
Proof. exact (read_stimulus_empty_timevect_run g self st). Qed.

Lemma read_stimulus_empty_timevect_witness :
  snd (read_stimulus example_globals_empty_timevect example_io false
         example_random) = Raise (IndexError 0).
Proof.
  rewrite (read_stimulus_empty_timevect example_globals_empty_timevect
             example_io example_random eq_refl).
  reflexivity.
Defined.

(** ** read_spiketrain: the waveforms and the window *)

Lemma lookup_repeat {A} (x : A) (n i : nat) :
  (i < n)%nat -> repeat x n !! i = Some x.
Proof.
  revert i. induction n as [| n IH]; intros i Hi; [lia |].
  destruct i as [| i]; simpl; [reflexivity | apply IH; lia].
Qed.

Lemma np_random_randn_inv (d0 d1 d2 : nat) st st' noise :
  np_random_randn d0 d1 d2 st = (st', Ok noise) ->
  noise =
    map (fun i =>
      map (fun j =>
        map (fun k => normals st (npos st + (i * d1 + j) * d2 + k)) (seq 0 d2))
          (seq 0 d1))
        (seq 0 d0).
Proof. unfold np_random_randn. intros H. injection H as _ <-. reflexivity. Qed.

(** In every train an eager call returns, sample [j] of snippet [i] is
    the template's sample [j] scaled by [e / 6 + 1], where [e] is deviate
    number [i * len(w) + j] of the draw: every snippet is the template
    under multiplicative noise of mean 1 and scale 1/6, and there is one
    electrode. *)
Theorem read_spiketrain_waveform_samples (g : Globals) (self : KwikIO)
    (cascade : bool) (segment_duration t_start : Q) (channel_index : Z)
    (pdf : NctPdf) (w : list Q) (sptr : SpikeTrain) st st' :
  HAVE_SCIPY g = true -> stats g = Some pdf -> spike_template pdf = Ok w ->
  read_spiketrain g self false cascade segment_duration t_start channel_index st
    = (st', Ok sptr) ->
  exists wf,
    sptr_waveforms sptr = Some (wf, pq_mV) /\
    forall i j wj,
      (i < 40)%nat -> w !! j = Some wj ->
      exists row,
        wf !! i = Some [row] /\
        row !! j =
          Some (wj * (normals st (npos st + i * length w + j) / 6 + 1))%Q.
Proof.
  intros HS Hstats Hw Hrun.
  destruct (read_spiketrain_eager_inv g self cascade segment_duration t_start
              channel_index pdf w st st' sptr HS Hstats Hw Hrun)
    as (times & noise & st1 & Htimes & Hnoise & _ & ->).
  apply np_random_randn_inv in Hnoise.
  assert (Hst1 : normals st1 = normals st /\ npos st1 = npos st).
  { rewrite np_random_rand_n_run in Htimes. injection Htimes as <- _.
    split; reflexivity. }
  destruct Hst1 as [En Ep]. rewrite En, Ep in Hnoise. subst noise.
  eexists. split; [reflexivity |].
  intros i j wj Hi Hj.
  assert (Hjlt : (j < length w)%nat) by (eapply lookup_lt_Some; exact Hj).
  eexists. split.
  - unfold perturb, tile. rewrite lookup_zip_with.
    rewrite (lookup_repeat [w] 40 i Hi). cbn [mbind option_bind].
    rewrite (lookup_map_seq _ 40 i 0 Hi).
    cbn [mbind option_bind seq map zip_with]. reflexivity.
  - rewrite lookup_zip_with, Hj. cbn [mbind option_bind].
    rewrite (lookup_map_seq _ (length w) j 0 Hjlt). cbn [mbind option_bind].
    do 5 f_equal. lia.
Qed.

Lemma read_spiketrain_waveform_samples_witness :
  exists sptr st' w wf,
    read_spiketrain example_globals example_io false true 15 (-1) 0 example_random
      = (st', Ok sptr) /\
    spike_template example_pdf = Ok w /\
    sptr_waveforms sptr = Some (wf, pq_mV).
Proof.
  destruct (spike_template_returns example_pdf) as (w & Hw & Hlen).
  destruct (read_spiketrain_returns example_globals example_io false true 15
              (-1) 0 example_pdf example_random eq_refl eq_refl)
    as (sptr & st' & Hrun); [right; discriminate |].
  destruct (read_spiketrain_waveform_samples example_globals example_io true 15
              (-1) 0 example_pdf w sptr example_random st' eq_refl eq_refl Hw
              Hrun)
    as (wf & Hwf & _).
  exists sptr, st', w, wf. split; [exact Hrun |]. split; [exact Hw | exact Hwf].
Defined.



(** ** read_segment: files, wiring and the random generator *)

(** The primary file is opened first and the companion second; when
    either is missing the call raises [IOError] for that path, whatever
    the flags, and the random generator is left as it was. *)
Theorem read_segment_missing_file (g : Globals) (fs : gmap string H5File)
    (self : KwikIO) (lazy cascade : bool) (dataset : Z) st :
  (fs !! filename self = None ->
     read_segment g fs self lazy cascade dataset st
       = (st, Raise (IOError (filename self)))) /\
  (is_Some (fs !! filename self) ->
     fs !! (fst (splitext (filename self)) +:+ ".raw.kwd") = None ->
     read_segment g fs self lazy cascade dataset st
       = (st, Raise (IOError (fst (splitext (filename self)) +:+ ".raw.kwd")))).
Proof.
  split.
  - intros H. unfold read_segment, h5py_File. rewrite H. reflexivity.
  - intros [kwik H] H'. unfold read_segment, h5py_File. rewrite H, H'.
    reflexivity.
Qed.

Lemma read_segment_missing_file_witness :
  read_segment example_globals {["exp.kwik" := mkH5File None]} example_io
    false true 0 example_random
  = (example_random, Raise (IOError "exp.raw.kwd")).
Proof.
  apply (proj2 (read_segment_missing_file example_globals
                  {["exp.kwik" := mkH5File None]} example_io false true 0
                  example_random)).
  - exists (mkH5File None). reflexivity.
  - reflexivity.
Defined.

Lemma for_each_preserves {A S} (P : S -> Prop) (body : A -> S -> M S)
    (xs : list A) :
  (forall x s st st' s', P s -> body x s st = (st', Ok s') -> P s') ->
  forall s st st' s', P s -> for_each xs body s st = (st', Ok s') -> P s'.
Proof.
  intros Hbody s st st' s' HP Hrun.
  apply (for_each_invariant (fun _ s => P s) body xs
           (fun done x s st st' s' => Hbody x s st st' s') [] s st st' s' HP Hrun).
Qed.

Lemma read_segment_cascade_keeps_name (g : Globals) (self : KwikIO)
    (lazy : bool) (kwd : H5File) (dataset : Z) (n : nat) (a : gmap string Q)
    (seg0 seg1 : Segment) st st' :
  read_segment_cascade g self lazy kwd dataset n a seg0 st = (st', Ok seg1) ->
  seg_name seg1 = seg_name seg0.
Proof.
  unfold read_segment_cascade. intros H.
  apply bind_Ok_inv in H as (sega & st1 & H1 & H).
  apply (for_each_preserves (fun s => seg_name s = seg_name seg0)) in H1;
    [| | reflexivity].
  2:{ intros i s sa sb s' Hs Hb.
      apply bind_Ok_inv in Hb as (ana & sc & _ & Hb).
      apply ret_inv in Hb as [_ ->]. exact Hs. }
  apply bind_Ok_inv in H as (segb & st2 & H2 & H).
  apply (for_each_preserves (fun s => seg_name s = seg_name seg0)) in H2;
    [| | exact H1].
  2:{ intros i s sa sb s' Hs Hb.
      apply (for_each_preserves (fun s => seg_name s = seg_name seg0)) in Hb;
        [exact Hb | | exact Hs].
      intros j s2 sc sd s2' Hs2 Hb2.
      apply bind_Ok_inv in Hb2 as (sptr & se & _ & Hb2).
      apply ret_inv in Hb2 as [_ ->]. exact Hs2. }
  apply bind_Ok_inv in H as (epo & st3 & _ & H).
  apply bind_Ok_inv in H as (shape & st4 & _ & H).
  apply bind_Ok_inv in H as (start_time & st5 & _ & H).
  apply bind_Ok_inv in H as (sample_rate & st6 & _ & H).
  apply bind_Ok_inv in H as (m & st7 & _ & H).
  apply ret_inv in H as [_ ->]. exact H2.
Qed.

(** Every child of a returned segment, with or without cascade, refers
    back to that segment, whose name is 'session something'. *)
Theorem read_segment_children_refer_to_segment (g : Globals)
    (fs : gmap string H5File) (self : KwikIO) (lazy cascade : bool)
    (dataset : Z) (seg : Segment) st st' :
  read_segment g fs self lazy cascade dataset st = (st', Ok seg) ->
  seg_name seg = "session something" /\
  Forall (fun a => ana_segment a = Some (seg_name seg)) (analogsignals seg) /\
  Forall (fun t => sptr_segment t = Some (seg_name seg)) (spiketrains seg) /\
  Forall (fun e => epo_segment e = Some (seg_name seg)) (epocharrays seg).
Proof.
  intros H. apply read_segment_inv in H
    as (kwik & kwd & d & a & seg1 & _ & _ & _ & _ & Hbody & ->).
  assert (Hname : seg_name seg1 = "session something").
  { destruct cascade.
    - apply read_segment_cascade_keeps_name in Hbody. exact Hbody.
    - apply ret_inv in Hbody as [_ ->]. reflexivity. }
  unfold create_many_to_one_relationship.
  cbn [seg_name analogsignals spiketrains epocharrays].
  split; [exact Hname |].
  repeat split; apply Forall_forall; intros x Hx;
    apply list_elem_of_In, in_map_iff in Hx as (y & <- & _); reflexivity.
Qed.

Lemma read_segment_children_refer_to_segment_witness :
  exists seg st',
    read_segment example_globals example_fs example_io true true 0 example_random
      = (st', Ok seg) /\
    Forall (fun t => sptr_segment t = Some "session something") (spiketrains seg).
Proof.
  destruct (read_segment_cascaded_returns example_globals example_fs example_io
              true 0%Z (mkH5File None) example_kwd
              (mkRecording (Some example_dataset) example_attrs) example_dataset
              example_pdf 30000%Q 0%Q 3%Z example_random
              eq_refl eq_refl eq_refl eq_refl eq_refl eq_refl eq_refl eq_refl
              eq_refl ltac:(lia) ltac:(discriminate))
    as (seg & st' & Hrun).
  exists seg, st'. split; [exact Hrun |].
  destruct (read_segment_children_refer_to_segment example_globals example_fs
              example_io true true 0%Z seg example_random st' Hrun)
    as (Hname & _ & Hs & _).
  rewrite Hname in Hs. exact Hs.
Defined.

(** *** Lazy reads and the random generator *)

Lemma bind_constant {A B} (m : M A) (k : A -> M B) :
  (exists r, forall st, m st = (st, r)) ->
  (forall a, exists r, forall st, k a st = (st, r)) ->
  exists r, forall st, bind m k st = (st, r).
Proof.
  intros [r Hm] Hk. destruct r as [a | e].
  - destruct (Hk a) as [r' Hk']. exists r'. intros st.
    unfold bind. rewrite Hm. apply Hk'.
  - exists (Raise e). intros st. unfold bind. rewrite Hm. reflexivity.
Qed.

Lemma lift_constant {A} (r : result A) :
  exists r', forall st, lift r st = (st, r').
Proof. exists r. reflexivity. Qed.

Lemma ret_constant {A} (a : A) : exists r, forall st, ret a st = (st, r).
Proof. exists (Ok a). reflexivity. Qed.

Lemma for_each_constant {A S} (body : A -> S -> M S) (xs : list A) :
  (forall x s, exists r, forall st, body x s st = (st, r)) ->
  forall s, exists r, forall st, for_each xs body s st = (st, r).
Proof.
  intros Hbody. induction xs as [| x xs IH]; intros s; cbn [for_each].
  - apply ret_constant.
  - apply bind_constant; [apply Hbody | exact IH].
Qed.

Lemma read_spiketrain_lazy_constant (g : Globals) (self : KwikIO)
    (cascade : bool) (segment_duration t_start : Q) (channel_index : Z) :
  exists r, forall st,
    read_spiketrain g self true cascade segment_duration t_start channel_index st
      = (st, r).
Proof.
  unfold read_spiketrain. apply bind_constant.
  - destruct (negb (HAVE_SCIPY g)); [| apply ret_constant].
    unfold raise_obj. destruct (SCIPY_ERR g); eexists; reflexivity.
  - intros _. apply bind_constant; [apply ret_constant |]. intros times.
    apply bind_constant; [apply lift_constant |]. intros spiketr.
    apply bind_constant.
    + unfold global. destruct (stats g); eexists; reflexivity.
    + intros pdf. apply bind_constant; [apply lift_constant |]. intros w.
      apply bind_constant; apply ret_constant || (intros; apply ret_constant).
Qed.

(** A lazy read neither consumes nor consults the random generator: with
    or without cascade, and whether it returns or raises, it leaves the
    generator as it was and its outcome is the same for every generator
    state. *)
Theorem read_segment_lazy_ignores_generator (g : Globals)
    (fs : gmap string H5File) (self : KwikIO) (cascade : bool) (dataset : Z) :
  exists r, forall st,
    read_segment g fs self true cascade dataset st = (st, r).
Proof.
  unfold read_segment.
  apply bind_constant; [apply lift_constant |]. intros kwik.
  apply bind_constant; [apply lift_constant |]. intros kwd.
  apply bind_constant; [apply lift_constant |]. intros d.
  apply bind_constant; [apply lift_constant |]. intros a.
  apply bind_constant; [| intros; apply ret_constant].
  destruct cascade; [| apply ret_constant].
  unfold read_segment_cascade.
  apply bind_constant.
  { apply for_each_constant. intros i seg.
    apply bind_constant; [apply lift_constant | intros; apply ret_constant]. }
  intros sega. apply bind_constant.
  { apply for_each_constant. intros i seg. apply for_each_constant.
    intros j seg'.
    apply bind_constant;
      [apply read_spiketrain_lazy_constant | intros; apply ret_constant]. }
  intros segb. apply bind_constant; [apply ret_constant |]. intros epo.
  apply bind_constant; [apply lift_constant |]. intros shape.
  apply bind_constant; [apply lift_constant |]. intros start_time.
  apply bind_constant; [apply lift_constant |]. intros sample_rate.
  apply bind_constant; [apply lift_constant |]. intros m.
  apply ret_constant.
Qed.

(** *** Failures inside the cascade *)

Lemma analogsignals_loop_returns (g : Globals) (self : KwikIO) (lazy : bool)
    (kwd : H5File) (dataset : Z) (xs : list nat) :
  (forall i, In i xs ->
     exists sig, read_analogsignal g self lazy kwd (Z.of_nat i) dataset = Ok sig) ->
  forall seg st, exists seg',
    for_each xs (fun i seg =>
        do ana <- lift (read_analogsignal g self lazy kwd (Z.of_nat i) dataset);
        ret (add_analogsignal ana seg)) seg st = (st, Ok seg').
Proof.
  induction xs as [| x xs IH]; intros Hall seg st.
  - exists seg. reflexivity.
  - destruct (Hall x (or_introl eq_refl)) as [sig Hsig].
    destruct (IH (fun i Hi => Hall i (or_intror Hi)) (add_analogsignal sig seg) st)
      as [seg' Hrest].
    exists seg'. cbn [for_each]. unfold bind at 1. unfold bind at 1.
    unfold lift. rewrite Hsig. unfold ret at 1. exact Hrest.
Qed.

(** Without scipy a cascaded read of a recording with at least one
    channel fails with the import's error as soon as the analog signals
    are read: the error of [read_spiketrain] reaches the caller, no
    segment is returned and nothing was drawn. *)
Theorem read_segment_without_scipy_raises (g : Globals)
    (fs : gmap string H5File) (self : KwikIO) (lazy : bool) (dataset : Z)
    (kwik kwd : H5File) (d : Dataset) (err : exn) st :
  HAVE_SCIPY g = false -> SCIPY_ERR g = Some err ->
  fs !! filename self = Some kwik ->
  fs !! (fst (splitext (filename self)) +:+ ".raw.kwd") = Some kwd ->
  kwd_data kwd dataset = Ok d ->
  (1 <= shape1 d)%nat ->
  (forall i, (i < shape1 d)%nat ->
     exists sig, read_analogsignal g self lazy kwd (Z.of_nat i) dataset = Ok sig) ->
  read_segment g fs self lazy true dataset st = (st, Raise err).
Proof.
  intros HS Herr Hkwik Hkwd Hd Hn Hana.
  destruct (kwd_data_recording kwd dataset d Hd) as (rec & _ & _ & Ha).
  rewrite (read_segment_found g fs self lazy true dataset kwik kwd d
             (attrs rec) st Hkwik Hkwd Hd Ha).
  apply bind_Raise. unfold read_segment_cascade.
  destruct (analogsignals_loop_returns g self lazy kwd dataset (range (shape1 d)))
    with (seg := Segment_new "session something") (st := st) as [sega H1].
  { intros i Hi. apply Hana. apply in_seq in Hi. lia. }
  rewrite (bind_Ok _ _ _ _ _ H1). apply bind_Raise.
  destruct (shape1 d) as [| n]; [lia |].
  unfold range. cbn [seq for_each]. apply bind_Raise.
  apply bind_Raise. apply bind_Raise.
  apply read_spiketrain_without_scipy; assumption.
Qed.

Lemma read_segment_without_scipy_raises_witness :
  read_segment example_globals_no_scipy example_fs example_io true true 0
    example_random
  = (example_random, Raise (ImportError "scipy")).
Proof.
  apply (read_segment_without_scipy_raises example_globals_no_scipy example_fs
           example_io true 0 (mkH5File None) example_kwd example_dataset
           (ImportError "scipy") example_random
           eq_refl eq_refl eq_refl eq_refl eq_refl).
  - simpl. lia.
  - intros i _. eexists.
    apply read_analogsignal_lazy_run
      with (rec := mkRecording (Some example_dataset) example_attrs)
           (r := 30000%Q) (s := 0%Q) (n := 3%Q); reflexivity.
Defined.

Lemma Qceiling_positive (n : Q) : (0 < n)%Q <-> (1 <= Qceiling n)%Z.
Proof.
  split; intros H.
  - assert (H' : (0 < inject_Z (Qceiling n))%Q)
      by (apply Qlt_le_trans with n; [exact H | apply Qle_ceiling]).
    change 0%Q with (inject_Z 0) in H'. rewrite <- Zlt_Qlt in H'. lia.
  - apply Qle_lt_trans with (inject_Z (Qceiling n - 1)); [| apply Qceiling_lt].
    change 0%Q with (inject_Z 0). rewrite <- Zle_Qle. lia.
Qed.

Lemma np_arange_to_nonempty (n : Q) : np_arange_to n <> [] <-> (0 < n)%Q.
Proof.
  rewrite Qceiling_positive. unfold np_arange_to. split; intros H.
  - destruct (Z.to_nat (Qceiling n)) as [| k] eqn:E; [contradiction H; reflexivity |].
    lia.
  - intros E. apply (f_equal length) in E.
    rewrite length_map, length_seq in E. simpl in E. lia.
Qed.

Lemma h5py_File_Ok_inv (fs : gmap string H5File) (name : string) (f : H5File) :
  h5py_File fs name = Ok f -> fs !! name = Some f.
Proof.
  unfold h5py_File. destruct (fs !! name) as [f' |]; intros H;
    [injection H as ->; reflexivity | discriminate H].
Qed.

(** The lazy cascade over a recording with the three attributes and a
    positive declared sample count returns, scipy being there. *)
Lemma read_segment_cascade_lazy_returns (g : Globals) (self : KwikIO)
    (kwd : H5File) (dataset : Z) (rec : Recording) (num_channels : nat)
    (pdf : NctPdf) (r s n : Q) (seg0 : Segment) st :
  HAVE_SCIPY g = true -> stats g = Some pdf ->
  kwd_recording kwd dataset = Ok rec ->
  attrs rec !! "sample_rate" = Some r ->
  attrs rec !! "start_time" = Some s ->
  attrs rec !! "shape" = Some n ->
  (0 < n)%Q ->
  exists seg1 st',
    read_segment_cascade g self true kwd dataset num_channels (attrs rec) seg0 st
      = (st', Ok seg1).
Proof.
  intros HS Hstats Hrec Hr Hs Hn Hpos. unfold read_segment_cascade.
  destruct (analogsignals_loop_returns g self true kwd dataset (range num_channels))
    with (seg := seg0) (st := st) as [sega H1].
  { intros i _. eexists. eapply read_analogsignal_lazy_run; eassumption. }
  rewrite (bind_Ok _ _ _ _ _ H1).
  destruct (for_each_returns
              (fun i seg =>
                 for_each (range 3) (fun _ seg =>
                   do sptr <- read_spiketrain g self true true
                                default_segment_duration default_t_start (Z.of_nat i);
                   ret (add_spiketrain sptr seg)) seg)
              (range num_channels)) with (s := sega) (st := st)
    as (segb & st2 & H2).
  { intros i seg sa _. apply for_each_returns. intros j seg' sb _.
    eexists _, _.
    rewrite (bind_Ok _ _ _ _ _
               (read_spiketrain_lazy_run g self true default_segment_duration
                  default_t_start (Z.of_nat i) pdf sb HS Hstats)).
    reflexivity. }
  rewrite (bind_Ok _ _ _ _ _ H2).
  rewrite (bind_Ok _ _ _ _ _ (read_stimulus_lazy_run g self st2)).
  rewrite (attr_Some _ _ _ Hn), (attr_Some _ _ _ Hs), (attr_Some _ _ _ Hr).
  unfold bind at 1. unfold lift at 1.
  unfold bind at 1. unfold lift at 1.
  unfold bind at 1. unfold lift at 1.
  destruct (py_max_nonempty (map (fun x => (x + s) / r)%Q (np_arange_to n)))
    as [m Hm].
  { intros E. apply (proj2 (np_arange_to_nonempty n) Hpos).
    destruct (np_arange_to n); [reflexivity | discriminate E]. }
  rewrite Hm. eexists _, _. reflexivity.
Qed.

(** With scipy imported, a lazy cascaded read returns a segment exactly
    when both files are found, the recording has its data set and the
    three attributes, and the declared sample count is positive; the
    number of channels and the rows of the data set do not matter. *)
Theorem read_segment_lazy_returns_iff (g : Globals) (fs : gmap string H5File)
    (self : KwikIO) (dataset : Z) (pdf : NctPdf) st :
  HAVE_SCIPY g = true -> stats g = Some pdf ->
  (exists seg st', read_segment g fs self true true dataset st = (st', Ok seg))
  <->
  (exists kwik kwd rec d r s n,
      fs !! filename self = Some kwik /\
      fs !! (fst (splitext (filename self)) +:+ ".raw.kwd") = Some kwd /\
      kwd_recording kwd dataset = Ok rec /\
      data rec = Some d /\
      attrs rec !! "sample_rate" = Some r /\
      attrs rec !! "start_time" = Some s /\
      attrs rec !! "shape" = Some n /\
      (0 < n)%Q).
Proof.
  intros HS Hstats. split.
  - intros (seg & st' & Hrun).
    apply read_segment_inv in Hrun
      as (kwik & kwd & d & a & seg1 & Hkwik & Hkwd & Hd & Ha & Hbody & _).
    apply h5py_File_Ok_inv in Hkwik. apply h5py_File_Ok_inv in Hkwd.
    destruct (kwd_data_recording kwd dataset d Hd) as (rec & Hrec & Hdata & Ha').
    rewrite Ha in Ha'. injection Ha' as ->.
    apply read_segment_cascade_inv in Hbody
      as (_ & _ & _ & n & s & r & m & Hn & Hs & Hr & Hm & _).
    exists kwik, kwd, rec, d, r, s, n. repeat split; try assumption.
    apply np_arange_to_nonempty. intros E. rewrite E in Hm. discriminate Hm.
  - intros (kwik & kwd & rec & d & r & s & n
            & Hkwik & Hkwd & Hrec & Hdata & Hr & Hs & Hn & Hpos).
    destruct (kwd_data_Ok kwd dataset rec d Hrec Hdata) as [Hd Ha].
    destruct (read_segment_cascade_lazy_returns g self kwd dataset rec (shape1 d)
                pdf r s n (Segment_new "session something") st
                HS Hstats Hrec Hr Hs Hn Hpos)
      as (seg1 & st' & Hbody).
    exists (create_many_to_one_relationship seg1), st'.
    rewrite (read_segment_found g fs self true true dataset kwik kwd d
               (attrs rec) st Hkwik Hkwd Hd Ha).
    rewrite (bind_Ok _ _ _ _ _ Hbody). reflexivity.
Qed.

Lemma read_segment_lazy_returns_iff_witness :
  exists seg st',
    read_segment example_globals example_fs example_io true true 0 example_random
      = (st', Ok seg).
Proof.
  apply (proj2 (read_segment_lazy_returns_iff example_globals example_fs
                  example_io 0 example_pdf example_random eq_refl eq_refl)).
  exists (mkH5File None), example_kwd,
    (mkRecording (Some example_dataset) example_attrs), example_dataset,
    30000%Q, 0%Q, 3%Q.
  repeat split; reflexivity.
Defined.

(** *** Eager reads and the random generator *)

Lemma generator_advanced_refl st : generator_advanced st 0 0 st.
Proof. unfold generator_advanced. repeat split; lia. Qed.

Lemma generator_advanced_trans st0 st1 st2 (a b a' b' : nat) :
  generator_advanced st0 a b st1 -> generator_advanced st1 a' b' st2 ->
  generator_advanced st0 (a + a') (b + b') st2.
Proof.
  unfold generator_advanced. intros (W1 & N1 & U1 & P1) (W2 & N2 & U2 & P2).
  rewrite W2, W1, N2, N1, U2, U1, P2, P1. repeat split; lia.
Qed.

Lemma generator_advanced_eq st0 st (a b a' b' : nat) :
  a = a' -> b = b' -> generator_advanced st0 a b st ->
  generator_advanced st0 a' b' st.
Proof. intros -> ->. exact (fun H => H). Qed.

Lemma for_each_invariant_st {A S} (I : list A -> S -> RandomState -> Prop)
    (body : A -> S -> M S) (xs : list A) :
  (forall done x s st st' s',
      I done s st -> body x s st = (st', Ok s') -> I (done ++ [x]) s' st') ->
  forall done s st st' s',
    I done s st -> for_each xs body s st = (st', Ok s') -> I (done ++ xs) s' st'.
Proof.
  intros Hstep. induction xs as [| x xs IH]; intros done s st st' s' HI Hrun.
  - simpl in Hrun. apply ret_inv in Hrun as [-> ->].
    rewrite app_nil_r. exact HI.
  - simpl in Hrun. apply bind_Ok_inv in Hrun as (s1 & st1 & Hb & Hrest).
    replace (done ++ x :: xs) with ((done ++ [x]) ++ xs)
      by (rewrite <- app_assoc; reflexivity).
    eapply IH; [| exact Hrest]. eapply Hstep; eassumption.
Qed.

Lemma np_random_rand_n_advances (n : nat) st st' r :
  np_random_rand_n n st = (st', r) -> generator_advanced st n 0 st'.
Proof.
  rewrite np_random_rand_n_run. intros H. injection H as <- _.
  unfold generator_advanced. cbn [words normals upos npos]. repeat split; lia.
Qed.

Lemma np_random_randn_advances (d0 d1 d2 : nat) st st' r :
  np_random_randn d0 d1 d2 st = (st', r) ->
  generator_advanced st 0 (d0 * d1 * d2) st'.
Proof.
  unfold np_random_randn. intros H. injection H as <- _.
  unfold generator_advanced. cbn [words normals upos npos]. repeat split; lia.
Qed.

(** An eager train costs 40 uniform words and [40 * 38] normal deviates. *)
Lemma read_spiketrain_eager_advances (g : Globals) (self : KwikIO)
    (cascade : bool) (segment_duration t_start : Q) (channel_index : Z)
    (sptr : SpikeTrain) st st' :
  read_spiketrain g self false cascade segment_duration t_start channel_index st
    = (st', Ok sptr) ->
  generator_advanced st 40 1520 st'.
Proof.
  intros H. destruct (HAVE_SCIPY g) eqn:HS.
  2:{ unfold read_spiketrain in H. rewrite HS in H. cbn [negb] in H.
      apply bind_Ok_inv in H as (u & st1 & Hu & _).
      unfold raise_obj in Hu. destruct (SCIPY_ERR g); discriminate Hu. }
  destruct (stats g) as [pdf |] eqn:Hstats.
  2:{ unfold read_spiketrain in H.
      apply bind_Ok_inv in H as (u & st1 & _ & H).
      apply bind_Ok_inv in H as (times & st2 & _ & H).
      apply bind_Ok_inv in H as (spiketr & st2' & _ & H).
      apply bind_Ok_inv in H as (pdf & st3 & Hg & _).
      rewrite Hstats in Hg. discriminate Hg. }
  destruct (spike_template_returns pdf) as (w & Hw & Hlen).
  destruct (read_spiketrain_eager_inv g self cascade segment_duration t_start
              channel_index pdf w st st' sptr HS Hstats Hw H)
    as (times & noise & st1 & Htimes & Hnoise & _ & _).
  apply np_random_rand_n_advances in Htimes.
  apply np_random_randn_advances in Hnoise. rewrite Hlen in Hnoise.
  eapply generator_advanced_eq;
    [| | exact (generator_advanced_trans _ _ _ _ _ _ _ Htimes Hnoise)];
    reflexivity.
Qed.

(** A returning eager [read_stimulus] costs 2000 uniform words. *)
Lemma read_stimulus_eager_advances (g : Globals) (self : KwikIO)
    (epo : EpochArray) st st' :
  read_stimulus g self false st = (st', Ok epo) ->
  generator_advanced st 2000 0 st'.
Proof.
  intros H. destruct (timevect g) as [tv |] eqn:Htv.
  2:{ rewrite (read_stimulus_eager_unbound g self st Htv) in H. discriminate H. }
  destruct tv as [| t tv].
  { rewrite (read_stimulus_empty_timevect_run g self st Htv) in H.
    discriminate H. }
  destruct (read_stimulus_eager_run g self (t :: tv) st Htv ltac:(discriminate))
    as (times & _ & Hrun).
  rewrite Hrun in H. injection H as <- _.
  unfold generator_advanced. cbn [words normals upos npos]. repeat split; lia.
Qed.

Lemma read_segment_cascade_eager_advances (g : Globals) (self : KwikIO)
    (kwd : H5File) (dataset : Z) (n : nat) (a : gmap string Q)
    (seg0 seg1 : Segment) st st' :
  read_segment_cascade g self false kwd dataset n a seg0 st = (st', Ok seg1) ->
  generator_advanced st (120 * n + 2000) (4560 * n) st'.
Proof.
  unfold read_segment_cascade. intros H.
  apply bind_Ok_inv in H as (sega & st1 & H1 & H).
  apply (for_each_invariant_st (fun _ _ s => s = st)) with (done := [])
    in H1; [| | reflexivity].
  2:{ intros done i s sa sb s' -> Hb.
      apply bind_Ok_inv in Hb as (ana & sc & Hana & Hb).
      apply lift_Ok_inv in Hana as [-> _].
      apply ret_inv in Hb as [-> _]. reflexivity. }
  subst st1.
  apply bind_Ok_inv in H as (segb & st2 & H2 & H).
  apply (for_each_invariant_st
           (fun done _ s =>
              generator_advanced st (120 * length done) (4560 * length done) s))
    with (done := []) in H2; [| | apply generator_advanced_refl].
  2:{ intros done i s sa sb s' Hsa Hb.
      apply (for_each_invariant_st
               (fun done' _ s =>
                  generator_advanced sa (40 * length done') (1520 * length done') s))
        with (done := []) in Hb; [| | apply generator_advanced_refl].
      2:{ intros done' j s2 sc sd s2' Hsc Hb2.
          apply bind_Ok_inv in Hb2 as (sptr & se & Hsptr & Hb2).
          apply ret_inv in Hb2 as [-> _].
          apply read_spiketrain_eager_advances in Hsptr.
          eapply generator_advanced_eq;
            [| | exact (generator_advanced_trans _ _ _ _ _ _ _ Hsc Hsptr)];
            rewrite length_app; simpl; lia. }
      eapply generator_advanced_eq;
        [| | exact (generator_advanced_trans _ _ _ _ _ _ _ Hsa Hb)];
        rewrite length_app; unfold range; rewrite length_app, length_seq;
        simpl; lia. }
  cbn [app] in H2. unfold range in H2. rewrite length_seq in H2.
  apply bind_Ok_inv in H as (epo & st3 & Hepo & H).
  apply read_stimulus_eager_advances in Hepo.
  apply bind_Ok_inv in H as (shape & st4 & Hx & H).
  apply lift_Ok_inv in Hx as [-> _].
  apply bind_Ok_inv in H as (start_time & st5 & Hx & H).
  apply lift_Ok_inv in Hx as [-> _].
  apply bind_Ok_inv in H as (sample_rate & st6 & Hx & H).
  apply lift_Ok_inv in Hx as [-> _].
  apply bind_Ok_inv in H as (m & st7 & Hx & H).
  apply lift_Ok_inv in Hx as [-> _].
  apply ret_inv in H as [-> _].
  eapply generator_advanced_eq;
    [| | exact (generator_advanced_trans _ _ _ _ _ _ _ H2 Hepo)]; lia.
Qed.

(** An eager cascaded read that returns has consumed, for [n] channels,
    exactly [120 n + 2000] uniform words (40 per train, three trains per
    channel, 2000 for the epochs) and [4560 n] normal deviates (40
    snippets of 38 samples per train), and nothing else of the
    generator changes. *)
Theorem read_segment_eager_draws (g : Globals) (fs : gmap string H5File)
    (self : KwikIO) (dataset : Z) (kwd : H5File) (d : Dataset)
    (seg : Segment) st st' :
  h5py_File fs (fst (splitext (filename self)) +:+ ".raw.kwd") = Ok kwd ->
  kwd_data kwd dataset = Ok d ->
  read_segment g fs self false true dataset st = (st', Ok seg) ->
  generator_advanced st (120 * shape1 d + 2000) (4560 * shape1 d) st'.
Proof.
  intros Hkwd Hd Hrun.
  apply read_segment_inv in Hrun
    as (kwik & kwd' & d' & a & seg1 & _ & Hkwd' & Hd' & _ & Hbody & _).
  rewrite Hkwd in Hkwd'. injection Hkwd' as <-.
  rewrite Hd in Hd'. injection Hd' as <-.
  eapply read_segment_cascade_eager_advances. exact Hbody.
Qed.

Lemma read_segment_eager_draws_witness :
  exists seg st',
    read_segment example_globals_timevect example_fs example_io false true 0
      example_random = (st', Ok seg) /\
    upos st' = (120 * 2 + 2000)%nat /\ npos st' = (4560 * 2)%nat.
Proof.
  destruct (read_segment_cascaded_returns example_globals_timevect example_fs
              example_io false 0%Z (mkH5File None) example_kwd
              (mkRecording (Some example_dataset) example_attrs) example_dataset
              example_pdf 30000%Q 0%Q 3%Z example_random
              eq_refl eq_refl eq_refl eq_refl eq_refl eq_refl eq_refl eq_refl
              eq_refl ltac:(lia))
    as (seg & st' & Hrun).
  { intros _. split; [simpl; lia |].
    exists [0; 1 # 2; 1]%Q. split; [reflexivity | discriminate]. }
  exists seg, st'. split; [exact Hrun |].
  destruct (read_segment_eager_draws example_globals_timevect example_fs
              example_io 0%Z example_kwd example_dataset seg example_random st'
              eq_refl eq_refl Hrun)
    as (_ & _ & Hu & Hp).
  split; [exact Hu | exact Hp].
Defined.

(** ** The companion path *)

Lemma string_app_cons (a : Ascii.ascii) (p q : string) :
  String a p +:+ q = String a (p +:+ q).
Proof. reflexivity. Qed.

Lemma string_app_nil_l (q : string) : "" +:+ q = q.
Proof. reflexivity. Qed.

Lemma string_app_nil_r (p : string) : p +:+ "" = p.
Proof.
  induction p as [| a p IH]; [reflexivity |].
  rewrite string_app_cons, IH. reflexivity.
Qed.

Lemma string_app_length (p q : string) :
  String.length (p +:+ q) = (String.length p + String.length q)%nat.
Proof.
  induction p as [| a p IH]; [reflexivity |].
  rewrite string_app_cons. simpl. rewrite IH. reflexivity.
Qed.

Lemma substring_whole (p : string) : String.substring 0 (String.length p) p = p.
Proof. induction p as [| a p IH]; simpl; [reflexivity | rewrite IH; reflexivity]. Qed.

Lemma substring_split (p : string) : forall d,
  (d <= String.length p)%nat ->
  String.substring 0 d p +:+ String.substring d (String.length p - d) p = p.
Proof.
  induction p as [| a p IH]; intros [| d] Hd; simpl in Hd |- *.
  - reflexivity.
  - lia.
  - rewrite substring_whole. reflexivity.
  - rewrite string_app_cons, IH by lia. reflexivity.
Qed.

Lemma substring_prefix_length (p : string) : forall d,
  (d <= String.length p)%nat -> String.length (String.substring 0 d p) = d.
Proof.
  induction p as [| a p IH]; intros [| d] Hd; simpl in Hd |- *;
    try reflexivity; try lia.
  rewrite IH by lia. reflexivity.
Qed.

(** [rfind_from] returns [last] or an index of [p], counted from [i], and
    no character after the index it returns is [c]. *)
Lemma rfind_from_spec (c : Ascii.ascii) (p : string) : forall i last,
  (last < i)%Z ->
  (last <= rfind_from c p i last < i + Z.of_nat (String.length p))%Z /\
  forall k : nat,
    (rfind_from c p i last < i + Z.of_nat k)%Z -> String.get k p <> Some c.
Proof.
  induction p as [| a p IH]; intros i last Hlt; simpl.
  - split; [lia |]. intros k _. discriminate.
  - destruct (IH (i + 1)%Z (if Ascii.eqb a c then i else last)) as [Hr Hmax].
    { destruct (Ascii.eqb a c); lia. }
    split.
    + destruct (Ascii.eqb a c); lia.
    + intros [| k] Hk.
      * destruct (Ascii.eqb a c) eqn:E; [lia |].
        intros H. injection H as ->. rewrite Ascii.eqb_refl in E. discriminate E.
      * apply Hmax. lia.
Qed.

Lemma rfind_range (c : Ascii.ascii) (p : string) :
  (-1 <= rfind c p < Z.of_nat (String.length p))%Z.
Proof.
  unfold rfind. destruct (rfind_from_spec c p 0 (-1) ltac:(lia)) as [H _]. lia.
Qed.

Lemma rfind_last (c : Ascii.ascii) (p : string) (k : nat) :
  (rfind c p < Z.of_nat k)%Z -> String.get k p <> Some c.
Proof.
  unfold rfind. destruct (rfind_from_spec c p 0 (-1) ltac:(lia)) as [_ H].
  intros Hk. apply H. lia.
Qed.

(** The two parts [splitext] returns make up the path again. *)
Theorem splitext_concat (p : string) :
  fst (splitext p) +:+ snd (splitext p) = p.
Proof.
  unfold splitext. cbv zeta.
  destruct (decide (rfind "/" p < rfind "." p)%Z) as [Hlt |];
    [| apply string_app_nil_r].
  destruct (has_non_dot p _ _); [| apply string_app_nil_r].
  cbn [fst snd]. apply substring_split.
  pose proof (rfind_range "." p). lia.
Qed.

Lemma string_get_app_r (p q : string) (k : nat) :
  String.get (String.length p + k) (p +:+ q) = String.get k q.
Proof.
  induction p as [| a p IH]; [reflexivity |].
  rewrite string_app_cons. simpl. exact IH.
Qed.

(** The companion path [basename + '.raw.kwd'] is never the path of the
    primary file itself. *)
Lemma companion_path_differs (p : string) :
  fst (splitext p) +:+ ".raw.kwd" <> p.
Proof.
  intros E. unfold splitext in E. cbv zeta in E.
  destruct (decide (rfind "/" p < rfind "." p)%Z) as [Hlt |].
  2:{ apply (f_equal String.length) in E. rewrite string_app_length in E.
      simpl in E. lia. }
  destruct (has_non_dot p _ _).
  2:{ apply (f_equal String.length) in E. rewrite string_app_length in E.
      simpl in E. lia. }
  cbn [fst snd] in E.
  pose proof (rfind_range "/" p) as Hsep. pose proof (rfind_range "." p) as Hdot.
  set (d := Z.to_nat (rfind "." p)) in *.
  assert (Hd : (d <= String.length p)%nat) by lia.
  pose proof (string_get_app_r (String.substring 0 d p) ".raw.kwd" 4) as Hget.
  rewrite (substring_prefix_length p d Hd), E in Hget.
  apply (rfind_last "." p (d + 4)); [lia | exact Hget].
Qed.

(** The primary file is opened and never read: replacing its content
    changes nothing of what [read_segment] does. *)
Theorem read_segment_ignores_kwik_content (g : Globals)
    (fs : gmap string H5File) (self : KwikIO) (lazy cascade : bool)
    (dataset : Z) (kwik' : H5File) st :
  is_Some (fs !! filename self) ->
  read_segment g (<[filename self := kwik']> fs) self lazy cascade dataset st
    = read_segment g fs self lazy cascade dataset st.
Proof.
  intros [kwik Hkwik]. unfold read_segment, h5py_File.
  rewrite lookup_insert_eq, Hkwik.
  rewrite lookup_insert_ne by (intros E; exact (companion_path_differs _ (eq_sym E))).
  reflexivity.
Qed.

Lemma read_segment_ignores_kwik_content_witness :
  read_segment example_globals (<["exp.kwik" := example_kwd]> example_fs)
    example_io true false 0 example_random
  = read_segment example_globals example_fs example_io true false 0
      example_random.
Proof.
  apply (read_segment_ignores_kwik_content example_globals example_fs example_io
           true false 0 example_kwd example_random).
  exists (mkH5File None). reflexivity.
Defined.

(** ** Shallow and lazy reads *)

(** Without cascade the call returns exactly when both files are found
    and the recording has its data set; the attributes, the rows and
    scipy are not needed. *)
Theorem read_segment_shallow_returns_iff (g : Globals)
    (fs : gmap string H5File) (self : KwikIO) (lazy : bool) (dataset : Z) st :
  (exists seg st', read_segment g fs self lazy false dataset st = (st', Ok seg))
  <->
  (exists kwik kwd d,
      fs !! filename self = Some kwik /\
      fs !! (fst (splitext (filename self)) +:+ ".raw.kwd") = Some kwd /\
      kwd_data kwd dataset = Ok d).
Proof.
  split.
  - intros (seg & st' & Hrun).
    apply read_segment_inv in Hrun
      as (kwik & kwd & d & a & seg1 & Hkwik & Hkwd & Hd & _).
    exists kwik, kwd, d.
    split; [apply h5py_File_Ok_inv; exact Hkwik |].
    split; [apply h5py_File_Ok_inv; exact Hkwd | exact Hd].
  - intros (kwik & kwd & d & Hkwik & Hkwd & Hd).
    destruct (kwd_data_recording kwd dataset d Hd) as (rec & _ & _ & Ha).
    eexists _, _.
    rewrite (read_segment_found g fs self lazy false dataset kwik kwd d
               (attrs rec) st Hkwik Hkwd Hd Ha).
    reflexivity.
Qed.

Lemma read_segment_shallow_returns_iff_witness :
  exists seg st',
    read_segment example_globals_no_scipy example_fs example_io false false 0
      example_random = (st', Ok seg).
Proof.
  apply (proj2 (read_segment_shallow_returns_iff example_globals_no_scipy
                  example_fs example_io false 0 example_random)).
  exists (mkH5File None), example_kwd, example_dataset.
  repeat split; reflexivity.
Defined.

Lemma read_spiketrain_lazy_inv (g : Globals) (self : KwikIO) (cascade : bool)
    (segment_duration t_start : Q) (channel_index : Z) (sptr : SpikeTrain)
    st st' :
  read_spiketrain g self true cascade segment_duration t_start channel_index st
    = (st', Ok sptr) ->
  sptr_times sptr = [] /\ sptr_waveforms sptr = None /\
  sptr_lazy_shape sptr = Some [40%nat].
Proof.
  intros H. destruct (HAVE_SCIPY g) eqn:HS.
  2:{ unfold read_spiketrain in H. rewrite HS in H. cbn [negb] in H.
      apply bind_Ok_inv in H as (u & st1 & Hu & _).
      unfold raise_obj in Hu. destruct (SCIPY_ERR g); discriminate Hu. }
  destruct (stats g) as [pdf |] eqn:Hstats.
  2:{ unfold read_spiketrain in H.
      apply bind_Ok_inv in H as (u & st1 & _ & H).
      apply bind_Ok_inv in H as (times & st2 & _ & H).
      apply bind_Ok_inv in H as (spiketr & st2' & _ & H).
      apply bind_Ok_inv in H as (pdf & st3 & Hg & _).
      rewrite Hstats in Hg. discriminate Hg. }
  rewrite (read_spiketrain_lazy_run g self cascade segment_duration t_start
             channel_index pdf st HS Hstats) in H.
  injection H as _ <-. repeat split; reflexivity.
Qed.

Lemma Forall_map_fields {A} (P : A -> Prop) (f : A -> A) (l : list A) :
  (forall x, P x -> P (f x)) -> Forall P l -> Forall P (map f l).
Proof.
  intros Hf H. induction H as [| x l Hx _ IH]; simpl; constructor;
    [apply Hf; exact Hx | exact IH].
Qed.

(** In a lazy cascaded read every child is a placeholder: the signals
    hold no sample and declare the attribute [shape], the spike trains
    hold no timestamp and no waveform and declare 40, and the epoch array
    is empty. *)
Theorem read_segment_lazy_children_are_placeholders (g : Globals)
    (fs : gmap string H5File) (self : KwikIO) (dataset : Z) (kwd : H5File)
    (a : gmap string Q) (seg : Segment) st st' :
  h5py_File fs (fst (splitext (filename self)) +:+ ".raw.kwd") = Ok kwd ->
  kwd_attrs kwd dataset = Ok a ->
  read_segment g fs self true true dataset st = (st', Ok seg) ->
  Forall (fun sig => ana_signal sig = [] /\ ana_lazy_shape sig = a !! "shape")
         (analogsignals seg) /\
  Forall (fun t => sptr_times t = [] /\ sptr_waveforms t = None /\
                   sptr_lazy_shape t = Some [40%nat])
         (spiketrains seg) /\
  Forall (fun e => magnitudes (epo_times e) = [] /\
                   magnitudes (epo_durations e) = [] /\ epo_labels e = [])
         (epocharrays seg).
Proof.
  intros Hkwd Ha Hrun.
  apply read_segment_inv in Hrun
    as (kwik & kwd' & d & a' & seg1 & _ & Hkwd' & _ & Ha' & Hbody & ->).
  rewrite Hkwd in Hkwd'. injection Hkwd' as <-.
  rewrite Ha in Ha'. injection Ha' as <-.
  unfold read_segment_cascade in Hbody.
  apply bind_Ok_inv in Hbody as (sega & st1 & H1 & H).
  pose proof (analogsignals_loop _ _ _ _ _ _ _ _ _ _ H1) as (_ & Hs1 & He1).
  apply (for_each_preserves
           (fun s => Forall (fun sig => ana_signal sig = [] /\
                                        ana_lazy_shape sig = a !! "shape")
                            (analogsignals s))) in H1; [| | constructor].
  2:{ intros i s sa sb s' Hs Hb.
      apply bind_Ok_inv in Hb as (ana & sc & Hana & Hb).
      apply lift_Ok_inv in Hana as [_ Hana].
      apply ret_inv in Hb as [_ ->].
      apply read_analogsignal_lazy_inv in Hana
        as (Hempty & _ & a2 & n & Ha2 & Hn & Hshape).
      rewrite Ha in Ha2. injection Ha2 as <-.
      unfold add_analogsignal. cbn [analogsignals].
      apply Forall_app. split; [exact Hs |].
      constructor; [| constructor]. rewrite Hn. split; assumption. }
  apply bind_Ok_inv in H as (segb & st2 & H2 & H).
  pose proof (spiketrains_loop _ _ _ _ _ _ _ _ _ H2) as (_ & Ha2 & He2).
  apply (for_each_preserves
           (fun s => Forall (fun t => sptr_times t = [] /\
                                      sptr_waveforms t = None /\
                                      sptr_lazy_shape t = Some [40%nat])
                            (spiketrains s))) in H2;
    [| | rewrite Hs1; constructor].
  2:{ intros i s sa sb s' Hs Hb.
      apply (for_each_preserves
               (fun s => Forall (fun t => sptr_times t = [] /\
                                          sptr_waveforms t = None /\
                                          sptr_lazy_shape t = Some [40%nat])
                                (spiketrains s))) in Hb; [exact Hb | | exact Hs].
      intros j s2 sc sd s2' Hs2 Hb2.
      apply bind_Ok_inv in Hb2 as (sptr & se & Hsptr & Hb2).
      apply ret_inv in Hb2 as [_ ->].
      apply read_spiketrain_lazy_inv in Hsptr.
      unfold add_spiketrain. cbn [spiketrains].
      apply Forall_app. split; [exact Hs2 |].
      constructor; [exact Hsptr | constructor]. }
  apply bind_Ok_inv in H as (epo & st3 & Hepo & H).
  apply ret_inv in Hepo as [_ ->].
  apply bind_Ok_inv in H as (shape & st4 & _ & H).
  apply bind_Ok_inv in H as (start_time & st5 & _ & H).
  apply bind_Ok_inv in H as (sample_rate & st6 & _ & H).
  apply bind_Ok_inv in H as (m & st7 & _ & H).
  apply ret_inv in H as [_ ->].
  unfold create_many_to_one_relationship, set_duration, add_epocharray.
  cbn [seg_name analogsignals spiketrains epocharrays].
  rewrite Ha2, He2, He1. cbn [Segment_new epocharrays app map].
  split; [| split].
  - apply Forall_map_fields; [intros x Hx; exact Hx | exact H1].
  - apply Forall_map_fields; [intros x Hx; exact Hx | exact H2].
  - constructor; [repeat split; reflexivity | constructor].
Qed.

Lemma read_segment_lazy_children_are_placeholders_witness :
  exists seg st',
    read_segment example_globals example_fs example_io true true 0 example_random
      = (st', Ok seg) /\
    Forall (fun sig => ana_signal sig = [] /\ ana_lazy_shape sig = Some 3%Q)
           (analogsignals seg).
Proof.
  destruct (read_segment_cascaded_returns example_globals example_fs example_io
              true 0%Z (mkH5File None) example_kwd
              (mkRecording (Some example_dataset) example_attrs) example_dataset
              example_pdf 30000%Q 0%Q 3%Z example_random
              eq_refl eq_refl eq_refl eq_refl eq_refl eq_refl eq_refl eq_refl
              eq_refl ltac:(lia) ltac:(discriminate))
    as (seg & st' & Hrun).
  exists seg, st'. split; [exact Hrun |].
  exact (proj1 (read_segment_lazy_children_are_placeholders example_globals
                  example_fs example_io 0%Z example_kwd example_attrs seg
                  example_random st' eq_refl eq_refl Hrun)).
Defined.

(** ** The polarity of the spike template *)

(** The template has 38 samples: the first 13 are a positive overshoot of
    at most a third, the other 25 the negative deflection, never below
    -1.  The density is scipy's; it is positive where it is sampled. *)
Theorem spike_template_polarity (pdf : NctPdf) :
  (forall x, In x (np_arange 11 60 2) -> (0 < pdf (inject_Z x) 5 20)%Q) ->
  exists w,
    spike_template pdf = Ok w /\
    length w = 38%nat /\
    forall j z, w !! j = Some z ->
      ((j < 13)%nat -> (0 < z)%Q /\ (z <= 1 # 3)%Q) /\
      ((13 <= j)%nat -> (-1 <= z)%Q /\ (z < 0)%Q).
Proof.
  intros Hpos.
  destruct (spike_template_returns pdf) as (w & Hw & Hlen).
  exists w. split; [exact Hw |]. split; [exact Hlen |].
  rewrite spike_template_unfold in Hw.
  apply result_bind_Ok_inv in Hw as (s & Hs & Hws). apply Ok_inj in Hws.
  destruct (template_scale pdf Hpos s Hs) as (Hm & _ & Hub).
  intros j z Hz. rewrite <- Hws in Hz.
  apply lookup_map_Some in Hz as (x & Hx & ->).
  match type of Hx with (?l1 ++ ?l2) !! _ = _ =>
    assert (Hl1 : length l1 = 13%nat)
      by (rewrite length_map, length_rev, length_map, np_arange_11_60_4;
          reflexivity)
  end.
  split; intros Hj.
  - rewrite lookup_app_l in Hx by (rewrite Hl1; exact Hj).
    apply lookup_Some_In in Hx.
    apply (w1_elements pdf Hpos) in Hx as (y & -> & Hy & Hypos).
    apply Qdiv_third_unit; [exact Hm | exact Hypos | apply Hub; exact Hy].
  - rewrite lookup_app_r in Hx by (rewrite Hl1; exact Hj).
    apply lookup_Some_In in Hx.
    apply Qdiv_neg_unit;
      [exact Hm | apply (w2_elements pdf Hpos); exact Hx | apply Hub; exact Hx].
Qed.

Lemma spike_template_polarity_witness :
  exists w,
    spike_template example_pdf = Ok w /\
    length w = 38%nat /\
    forall j z, w !! j = Some z ->
      ((j < 13)%nat -> (0 < z)%Q /\ (z <= 1 # 3)%Q) /\
      ((13 <= j)%nat -> (-1 <= z)%Q /\ (z < 0)%Q).
Proof.
  apply (spike_template_polarity example_pdf). exact example_pdf_positive.
Defined.
